(** * Space preprocessing and MiniGrid environment adapters

    A shallow embedding of [rllte/common/preprocessing.py] and of
    [hsuanwu/env/minigrid/__init__.py], with the properties of the
    space-description normaliser, the image-space classifier, the
    preprocessing-function selector, the batched tensor adapter and the
    environment factory.

    Conventions of the embedding:
    - a Python call is a computation in the monad [M]: the warnings it emits,
      and either a value or the exception it raises;
    - a NumPy array and a torch tensor are a shape, a dtype and the elements in
      row-major order; an element is the rational number it denotes
      (rounding to the dtype's precision is not modelled);
    - a closure returned by Python code is a Rocq function. *)

From Stdlib Require Import String ZArith QArith List Bool Arith Lia.
Import ListNotations.

Set Warnings "-register-all".
Local Open Scope Z_scope.

(** ** Python computations *)

Inductive dtype : Type :=
| bool_ | uint8 | int8 | int16 | int32 | int64 | float16 | float32 | float64.

Definition dtype_eqb (a b : dtype) : bool :=
  match a, b with
  | bool_, bool_ | uint8, uint8 | int8, int8 | int16, int16 | int32, int32
  | int64, int64 | float16, float16 | float32, float32 | float64, float64 => true
  | _, _ => false
  end.

Definition is_floating (d : dtype) : bool :=
  match d with float16 | float32 | float64 => true | _ => false end.

(** [numpy.ndarray]: elements in row-major order. A well-formed array has
    [length nd_data = prod nd_shape]. *)
Record ndarray : Type := mk_ndarray
  { nd_shape : list nat; nd_dtype : dtype; nd_data : list Q }.

(** A box space: [low] and [high] are arrays of shape [shape], kept here by
    their elements. *)
Record BoxSpace : Type := mk_Box
  { box_shape : list nat; box_low : list Q; box_high : list Q; box_dtype : dtype }.

(** The space classes of [gymnasium.spaces]. [Discrete] keeps [n] (the code
    never reads [start]); [MultiDiscrete] keeps the vector of counts [nvec]
    (one axis); [Dict] keeps its items in the order of [spaces.items()]. *)
Inductive Space : Type :=
| Box (b : BoxSpace)
| Discrete (n : Z)
| MultiDiscrete (nvec : list Z)
| MultiBinary (shape : list nat)
| Dict (spaces : list (string * Space))
| Tuple (spaces : list Space)
| Text (max_length : nat)
| Sequence (feature_space : Space).

Inductive message : Type :=
| observation_space_is_not_supported (s : Space)
| action_space_is_not_supported (s : Space)
| Preprocessing_not_implemented_for (s : Space).

Inductive exn : Type :=
| NotImplementedError (msg : message)
| IndexError
| TypeError
| ValueError
| RuntimeError
| gymnasium_Error.

Inductive warning : Type :=
| channels_last_second_dimension_smallest
| RuntimeWarning_overflow_in_scalar_add.

Inductive result (A : Type) : Type :=
| Ok (a : A)
| Raise (e : exn).
Arguments Ok {A} a.
Arguments Raise {A} e.

(** Warnings emitted so far, and the outcome. *)
Definition M (A : Type) : Type := (list warning * result A)%type.

Definition ret {A} (a : A) : M A := ([], Ok a).
Definition raise {A} (e : exn) : M A := ([], Raise e).
Definition warn (w : warning) : M unit := ([w], Ok tt).
Definition bind {A B} (m : M A) (k : A -> M B) : M B :=
  match m with
  | (ws, Ok a) => let (ws', r) := k a in (ws ++ ws', r)
  | (ws, Raise e) => (ws, Raise e)
  end.

Notation "x <- m ;; k" := (bind m (fun x => k))
  (at level 61, m at next level, right associativity).
Notation "' pat <- m ;; k" := (bind m (fun x => match x with pat => k end))
  (at level 61, pat pattern, m at next level, right associativity).
Notation "m ;;; k" := (bind m (fun _ => k))
  (at level 61, right associativity).

(** ** NumPy and Python primitives used by the code *)

Inductive pynum : Type :=
| PyInt (z : Z)
| PyFloat (q : Q).

(** [np.prod(shape)] *)
Definition np_prod (shape : list nat) : nat := fold_right Nat.mul 1%nat shape.

(** [a[0]]: the first slice along axis 0. *)
Definition np_getitem0 (a : ndarray) : M ndarray :=
  match nd_shape a with
  | [] => raise IndexError
  | O :: _ => raise IndexError
  | S _ :: rest =>
      ret (mk_ndarray rest (nd_dtype a) (firstn (np_prod rest) (nd_data a)))
  end.

(** [float(a)]: only an array of one element converts to a Python scalar. *)
Definition py_float (a : ndarray) : M pynum :=
  match nd_data a with
  | [x] => ret (PyFloat x)
  | _ => raise TypeError
  end.

(** [seq[i]] on a Python sequence or a one-axis array. *)
Definition getitem {A} (l : list A) (i : nat) : M A :=
  match nth_error l i with
  | Some x => ret x
  | None => raise IndexError
  end.

(** [sum(nvec)] *)
Definition py_sum (l : list Z) : Z := fold_right Z.add 0 l.

(** [np.argmin(shape)]: the first index that holds the minimum. *)
Fixpoint argmin_from (best_i best cur : nat) (l : list nat) : nat :=
  match l with
  | [] => best_i
  | x :: tl =>
      if (x <? best)%nat then argmin_from cur x (S cur) tl
      else argmin_from best_i best (S cur) tl
  end.

Definition np_argmin (shape : list nat) : M nat :=
  match shape with
  | [] => raise ValueError
  | x :: tl => ret (argmin_from 0%nat x 1%nat tl)
  end.

(** ** Attributes of a space *)

Definition low (b : BoxSpace) : ndarray :=
  mk_ndarray (box_shape b) (box_dtype b) (box_low b).
Definition high (b : BoxSpace) : ndarray :=
  mk_ndarray (box_shape b) (box_dtype b) (box_high b).

(** [space.shape]; [None] for the composite and the text spaces. *)
Definition shape (s : Space) : option (list nat) :=
  match s with
  | Box b => Some (box_shape b)
  | Discrete _ => Some []
  | MultiDiscrete nvec => Some [length nvec]
  | MultiBinary sh => Some sh
  | Dict _ | Tuple _ | Text _ | Sequence _ => None
  end.

(** [space.__class__.__name__] *)
Definition class_name (s : Space) : string :=
  match s with
  | Box _ => "Box"
  | Discrete _ => "Discrete"
  | MultiDiscrete _ => "MultiDiscrete"
  | MultiBinary _ => "MultiBinary"
  | Dict _ => "Dict"
  | Tuple _ => "Tuple"
  | Text _ => "Text"
  | Sequence _ => "Sequence"
  end.

(** ** [process_observation_space] *)

Inductive ObsShape : Type :=
| Shape (sh : list nat)
| ShapeDict (items : list (string * ObsShape)).

Fixpoint process_observation_space (observation_space : Space) : M ObsShape :=
  match observation_space with
  | Box b => ret (Shape (box_shape b))
  | Discrete _ => ret (Shape [1%nat])
  | MultiDiscrete nvec => ret (Shape [length nvec])
  | MultiBinary sh => ret (Shape sh)
  | Dict spaces =>
      items <- (fix comprehension (l : list (string * Space))
                  : M (list (string * ObsShape)) :=
                  match l with
                  | [] => ret []
                  | (key, subspace) :: tl =>
                      v <- process_observation_space subspace ;;
                      rest <- comprehension tl ;;
                      ret ((key, v) :: rest)
                  end) spaces ;;
      ret (ShapeDict items)
  | _ => raise (NotImplementedError
                  (observation_space_is_not_supported observation_space))
  end.

(** ** [process_action_space] *)

(** The code branches on [action_space.__class__.__name__]; for the classes
    of [gymnasium.spaces] the name identifies the class, so the branches are
    those of a match on the constructor (see [class_name]). *)
Definition action_info : Type :=
  (option (list nat) * Z * string * (pynum * pynum))%type.

Definition process_action_space (action_space : Space) : M action_info :=
  let action_shape := shape action_space in
  match action_space with
  | Discrete n =>
      ret (action_shape, n, "Discrete"%string, (PyInt 0, PyInt (n - 1)))
  | Box b =>
      let action_dim := Z.of_nat (np_prod (box_shape b)) in
      l0 <- np_getitem0 (low b) ;;
      lo <- py_float l0 ;;
      h0 <- np_getitem0 (high b) ;;
      hi <- py_float h0 ;;
      ret (action_shape, action_dim, "Box"%string, (lo, hi))
  | MultiDiscrete nvec =>
      let action_dim := Z.of_nat (length nvec) in
      n0 <- getitem nvec 0 ;;
      ret (action_shape, action_dim, "MultiDiscrete"%string,
           (PyInt 0, PyInt (n0 - 1)))
  | MultiBinary sh =>
      d0 <- getitem sh 0 ;;
      ret (action_shape, Z.of_nat d0, "MultiBinary"%string, (PyInt 0, PyInt 1))
  | _ => raise (NotImplementedError (action_space_is_not_supported action_space))
  end.

(** ** [process_env_info] *)

Definition process_env_info (observation_space action_space : Space)
    : M (ObsShape * option (list nat) * Z * string * (pynum * pynum)) :=
  obs_shape <- process_observation_space observation_space ;;
  '(action_shape, action_dim, action_type, action_range) <-
      process_action_space action_space ;;
  ret (obs_shape, action_shape, action_dim, action_type, action_range).

(** ** [get_flattened_obs_dim] *)

(** The value an int64 holds for the integer [z]. *)
Definition int64_wrap (z : Z) : Z := (z + 2 ^ 63) mod 2 ^ 64 - 2 ^ 63.

(** [a + b] on NumPy int64 scalars: a sum out of range wraps around, with a
    RuntimeWarning. *)
Definition int64_add (a b : Z) : M Z :=
  if (- 2 ^ 63 <=? a + b) && (a + b <? 2 ^ 63) then ret (a + b)
  else warn RuntimeWarning_overflow_in_scalar_add ;;; ret (int64_wrap (a + b)).

(** [sum(nvec)] on an int64 array: the elements are added from the left,
    starting from 0. *)
Fixpoint np_sum_from (acc : Z) (nvec : list Z) : M Z :=
  match nvec with
  | [] => ret acc
  | x :: tl => acc' <- int64_add acc x ;; np_sum_from acc' tl
  end.

Definition np_sum (nvec : list Z) : M Z := np_sum_from 0 nvec.

Section FlattenedDim.

(** [gymnasium.spaces.utils.flatdim], a function of the library. *)
Variable flatdim : Space -> M Z.

Definition get_flattened_obs_dim (observation_space : Space) : M Z :=
  match observation_space with
  | MultiDiscrete nvec => np_sum nvec
  | _ => flatdim observation_space
  end.

End FlattenedDim.

(** ** The image-space classifier *)

Definition is_image_space_channels_first (observation_space : BoxSpace) : M bool :=
  smallest_dimension <- np_argmin (box_shape observation_space) ;;
  (if (smallest_dimension =? 1)%nat
   then warn channels_last_second_dimension_smallest
   else ret tt) ;;;
  ret (smallest_dimension =? 0)%nat.

(** [np.any(a != c)] *)
Definition np_any_ne (a : list Q) (c : Q) : bool :=
  existsb (fun x => negb (Qeq_bool x c)) a.

(** [seq[-1]] *)
Definition getitem_last {A} (l : list A) : M A :=
  match rev l with
  | x :: _ => ret x
  | [] => raise IndexError
  end.

(** [n in [1, 3, 4]] *)
Definition in_1_3_4 (n : nat) : bool :=
  ((n =? 1) || (n =? 3) || (n =? 4))%nat.

Definition is_image_space (observation_space : Space)
    (check_channels normalized_image : bool) : M bool :=
  let check_dtype := negb normalized_image in
  let check_bounds := negb normalized_image in
  match observation_space with
  | Box b =>
      if (length (box_shape b) =? 3)%nat then
        if check_dtype && negb (dtype_eqb (box_dtype b) uint8) then ret false
        else
          let incorrect_bounds :=
            np_any_ne (box_low b) 0 || np_any_ne (box_high b) 255 in
          if check_bounds && incorrect_bounds then ret false
          else if negb check_channels then ret true
          else
            channels_first <- is_image_space_channels_first b ;;
            n_channels <- (if channels_first : bool
                           then getitem (box_shape b) 0
                           else getitem_last (box_shape b)) ;;
            ret (in_1_3_4 n_channels)
      else ret false
  | _ => ret false
  end.

(** ** Torch tensors and the operations the code calls *)

Definition device : Type := string.

Record Tensor : Type := mk_Tensor
  { t_shape : list nat; t_dtype : dtype; t_device : device; t_data : list Q }.

Definition cpu : device := "cpu"%string.

(** [th.as_tensor(obs)] on a host array *)
Definition as_tensor (obs : ndarray) : Tensor :=
  mk_Tensor (nd_shape obs) (nd_dtype obs) cpu (nd_data obs).

(** [th.as_tensor(obs, dtype=dt)] *)
Definition as_tensor_dtype (obs : ndarray) (dt : dtype) : Tensor :=
  mk_Tensor (nd_shape obs) dt cpu (nd_data obs).

(** Rounding towards zero, as a cast to an integer dtype does. *)
Definition Qtrunc (q : Q) : Z := Z.quot (Qnum q) (Z.pos (Qden q)).

(** [t.long()] *)
Definition long (t : Tensor) : Tensor :=
  mk_Tensor (t_shape t) int64 (t_device t)
            (map (fun x => inject_Z (Qtrunc x)) (t_data t)).

(** [t.float()] *)
Definition float (t : Tensor) : Tensor :=
  mk_Tensor (t_shape t) float32 (t_device t) (t_data t).

(** [t / 255.0]: true division; an integer tensor is promoted to the default
    floating dtype. *)
Definition div_255 (t : Tensor) : Tensor :=
  mk_Tensor (t_shape t)
            (if is_floating (t_dtype t) then t_dtype t else float32)
            (t_device t)
            (map (fun x => x / 255)%Q (t_data t)).

(** One row of a one-hot encoding: [1] at index [v], [0] elsewhere. *)
Definition one_hot_row (num_classes : nat) (v : Z) : list Q :=
  map (fun j => if Z.of_nat j =? v then 1%Q else 0%Q) (seq 0 num_classes).

Definition list_min (x : Z) (l : list Z) : Z := fold_left Z.min l x.
Definition list_max (x : Z) (l : list Z) : Z := fold_left Z.max l x.

(** [F.one_hot(t, num_classes)] on a host tensor: an index tensor is required,
    class values must lie in [0, num_classes), and [num_classes = -1] asks for
    the number of classes to be inferred; a tensor without elements needs a
    positive [num_classes]. The result has one more axis. *)
Definition one_hot (t : Tensor) (num_classes : Z) : M Tensor :=
  if negb (dtype_eqb (t_dtype t) int64) then raise RuntimeError
  else
    match map Qtrunc (t_data t) with
    | [] =>
        if num_classes <=? 0 then raise RuntimeError
        else ret (mk_Tensor (t_shape t ++ [Z.to_nat num_classes]) int64
                            (t_device t) [])
    | v :: vs =>
        if list_min v vs <? 0 then raise RuntimeError
        else
          classes <- (if num_classes =? -1 then ret (list_max v vs + 1)
                      else if list_max v vs <? num_classes then ret num_classes
                      else raise RuntimeError) ;;
          ret (mk_Tensor (t_shape t ++ [Z.to_nat classes]) int64 (t_device t)
                         (flat_map (one_hot_row (Z.to_nat classes)) (v :: vs)))
    end.

(** The first [n] rows of width [w] of a row-major block. *)
Fixpoint rows_of (n w : nat) (data : list Q) : list (list Q) :=
  match n with
  | O => []
  | S n' => firstn w data :: rows_of n' w (skipn w data)
  end.

(** [th.split(t, 1, dim=1)]: the slices of extent 1 along axis 1 (a single
    empty slice when that axis has extent 0). A tensor without axes cannot
    be split (RuntimeError); with one axis, axis 1 is out of range
    (IndexError). *)
Definition split_1_dim1 (t : Tensor) : M (list Tensor) :=
  match t_shape t with
  | d0 :: d1 :: rest =>
      let r := np_prod rest in
      let blocks := rows_of d0 (d1 * r) (t_data t) in
      ret (map (fun j =>
                  mk_Tensor (d0 :: Nat.min 1 (d1 - j) :: rest) (t_dtype t)
                            (t_device t)
                            (flat_map (fun blk => firstn r (skipn (j * r) blk))
                                      blocks))
               (seq 0 (Nat.max d1 1)))
  | [_] => raise IndexError
  | [] => raise RuntimeError
  end.

Definition shape_eqb (a b : list nat) : bool :=
  if list_eq_dec Nat.eq_dec a b then true else false.

(** [th.cat(ts, dim=-1)] for tensors of one dtype: they must agree on every
    axis but the last. *)
Definition cat_last (ts : list Tensor) : M Tensor :=
  match ts with
  | [] => raise RuntimeError
  | t0 :: _ =>
      let lead := removelast (t_shape t0) in
      if forallb (fun t => match t_shape t with
                           | [] => false
                           | _ => shape_eqb (removelast (t_shape t)) lead
                           end) ts
      then
        let outer := np_prod lead in
        let width t := last (t_shape t) O in
        ret (mk_Tensor
               (lead ++ [fold_right Nat.add O (map width ts)])
               (t_dtype t0) (t_device t0)
               (flat_map
                  (fun r => flat_map
                              (fun t => nth r (rows_of outer (width t) (t_data t)) [])
                              ts)
                  (seq 0 outer)))
      else raise RuntimeError
  end.

(** [t.view(d0, d1)]: the element count must be kept; [d1 = -1] is inferred. *)
Definition view2 (t : Tensor) (d0 : nat) (d1 : Z) : M Tensor :=
  let numel := np_prod (t_shape t) in
  if d1 <? -1 then raise RuntimeError
  else if d1 =? -1 then
    if (d0 =? 0)%nat then raise RuntimeError
    else if (numel mod d0 =? 0)%nat
         then ret (mk_Tensor [d0; (numel / d0)%nat] (t_dtype t) (t_device t)
                             (t_data t))
         else raise RuntimeError
  else if (numel =? d0 * Z.to_nat d1)%nat
       then ret (mk_Tensor [d0; Z.to_nat d1] (t_dtype t) (t_device t) (t_data t))
       else raise RuntimeError.

Fixpoint mapM {A B} (f : A -> M B) (l : list A) : M (list B) :=
  match l with
  | [] => ret []
  | x :: tl => y <- f x ;; ys <- mapM f tl ;; ret (y :: ys)
  end.

(** [enumerate(l)] *)
Definition enumerate {A} (l : list A) : list (nat * A) :=
  combine (seq 0 (length l)) l.

(** ** [get_preprocess_obs_fn] *)

Definition _multi_discrete_to_one_hot (nvec : list Z) (obs : ndarray) : M Tensor :=
  let obs := as_tensor obs in
  chunks <- split_1_dim1 (long obs) ;;
  pieces <- mapM (fun '(idx, obs_) =>
                    n <- getitem nvec idx ;;
                    oh <- one_hot (long obs_) n ;;
                    ret (float oh))
                 (enumerate chunks) ;;
  joined <- cat_last pieces ;;
  rows <- getitem (t_shape obs) 0 ;;
  view2 joined rows (py_sum nvec).

Definition get_preprocess_obs_fn (observation_space : Space)
    : M (ndarray -> M Tensor) :=
  match observation_space with
  | Box b =>
      image <- is_image_space observation_space false false ;;
      if image : bool
      then ret (fun obs => ret (div_255 (as_tensor obs)))
      else ret (fun obs => ret (as_tensor_dtype obs float32))
  | Discrete n =>
      ret (fun obs => one_hot (long (as_tensor obs)) n)
  | MultiDiscrete nvec =>
      ret (_multi_discrete_to_one_hot nvec)
  | MultiBinary _ =>
      ret (fun obs => ret (float (as_tensor obs)))
  | _ => raise (NotImplementedError
                  (Preprocessing_not_implemented_for observation_space))
  end.

(** ** The batched tensor adapter, [TorchVecEnvWrapper] *)

(** [th.as_tensor(a, device=dev)] and [th.as_tensor(a, dtype=dt, device=dev)] *)
Definition as_tensor_on (a : ndarray) (dev : device) : Tensor :=
  mk_Tensor (nd_shape a) (nd_dtype a) dev (nd_data a).
Definition as_tensor_dtype_on (a : ndarray) (dt : dtype) (dev : device) : Tensor :=
  mk_Tensor (nd_shape a) dt dev (nd_data a).

(** [t.squeeze(1)] *)
Definition squeeze_1 (t : Tensor) : M Tensor :=
  match t_shape t with
  | d0 :: d1 :: rest =>
      ret (mk_Tensor (if (d1 =? 1)%nat then d0 :: rest else d0 :: d1 :: rest)
                     (t_dtype t) (t_device t) (t_data t))
  | _ => raise IndexError
  end.

(** [t.unsqueeze(dim=1)] *)
Definition unsqueeze_1 (t : Tensor) : M Tensor :=
  match t_shape t with
  | d0 :: rest =>
      ret (mk_Tensor (d0 :: 1%nat :: rest) (t_dtype t) (t_device t) (t_data t))
  | [] => raise IndexError
  end.

(** [t.cpu().numpy()], for a tensor that holds data only (the record has
    no gradient attached to it). *)
Definition cpu_numpy (t : Tensor) : ndarray :=
  mk_ndarray (t_shape t) (t_dtype t) (t_data t).

(** [th.as_tensor([[1.0] if _ else [0.0] for _ in flags], dtype=dt, device=dev)]:
    a list of one-element rows gives a column; the empty list gives an empty
    one-axis tensor. *)
Definition flags_as_tensor (flags : list bool) (dt : dtype) (dev : device) : Tensor :=
  let rows := map (fun b : bool => if b then [1%Q] else [0%Q]) flags in
  mk_Tensor (match rows with [] => [O] | _ => [length rows; 1%nat] end)
            dt dev (concat rows).

Section BatchedTensorAdapter.

(** The wrapped vectorised environment, a library object: its state, the
    info dictionaries it returns, and its [reset] and [step]. *)
Variables (env_state info_dict kwargs : Type).
Variable env_reset : env_state -> kwargs -> M (env_state * (ndarray * info_dict)).
Variable env_step :
  env_state -> ndarray ->
  M (env_state * (ndarray * ndarray * list bool * list bool * info_dict)).

Definition reset (_device : device) (st : env_state) (kw : kwargs)
    : M (env_state * (Tensor * info_dict)) :=
  '(st', (obs, info)) <- env_reset st kw ;;
  let obs := as_tensor_on obs _device in
  ret (st', (obs, info)).

Definition step (_device : device) (st : env_state) (action : Tensor)
    : M (env_state * (Tensor * Tensor * Tensor * Tensor * info_dict)) :=
  squeezed <- squeeze_1 action ;;
  '(st', (obs, reward, terminated, truncated, info)) <-
      env_step st (cpu_numpy squeezed) ;;
  let obs := as_tensor_on obs _device in
  reward <- unsqueeze_1 (as_tensor_dtype_on reward float32 _device) ;;
  let terminated := flags_as_tensor terminated float32 _device in
  let truncated := flags_as_tensor truncated float32 _device in
  ret (st', (obs, reward, terminated, truncated, info)).

End BatchedTensorAdapter.

Arguments reset {env_state info_dict kwargs} env_reset _device st kw.
Arguments step {env_state info_dict} env_step _device st action.

(** ** The environment factory, [make_minigrid_env] *)

(** Environments are library objects; the factory only composes their
    constructors, which are kept as such. *)
Inductive Env : Type :=
| gym_make (env_id : string)
| FullyObsWrapper (env : Env)
| Minigrid2Image (env : Env)
| FrameStack (env : Env) (k : Z)
| FlatObsWrapper (env : Env).

(** An environment whose action and observation spaces have been seeded. *)
Record SeededEnv : Type := mk_SeededEnv
  { the_env : Env; action_space_seed : Z; observation_space_seed : Z }.

Inductive VecEnv : Type :=
| SyncVectorEnv (envs : list SeededEnv)
| RecordEpisodeStatistics (env : VecEnv).

(** [env.envs], forwarded through the wrappers *)
Fixpoint envs (v : VecEnv) : list SeededEnv :=
  match v with
  | SyncVectorEnv l => l
  | RecordEpisodeStatistics v' => envs v'
  end.

Record TorchVecEnvWrapper : Type := mk_TorchVecEnvWrapper
  { env : VecEnv; _device : device; num_envs : nat }.

(** [range(n)] *)
Definition range (n : Z) : list Z := map Z.of_nat (seq 0 (Z.to_nat n)).

(** [space.seed(seed)]: the seed of a generator must be a non-negative
    integer ([gymnasium.utils.seeding.np_random]). *)
Definition Space_seed (seed : Z) : M unit :=
  if seed <? 0 then raise gymnasium_Error else ret tt.

(** [SyncVectorEnv(env_fns)] calls every constructor in order, then reads the
    metadata and the spaces of the first environment: there must be one. *)
Definition SyncVectorEnv_init (env_fns : list (unit -> M SeededEnv)) : M VecEnv :=
  envs <- mapM (fun env_fn => env_fn tt) env_fns ;;
  match envs with
  | [] => raise IndexError
  | _ => ret (SyncVectorEnv envs)
  end.

Section Factory.

(** Library code the factory runs. [construct e] is the outcome of running
    the constructor at the head of [e] on the environment below it:
    [gym.make] raises on an identifier that is not registered, and a wrapper
    may reject the environment it is given. [th_device] is [th.device], which
    raises on a string that names no device. *)
Variable construct : Env -> M unit.
Variable th_device : device -> M device.

(** [TorchVecEnvWrapper.__init__] *)
Definition TorchVecEnvWrapper_init (e : VecEnv) (dev : device)
    : M TorchVecEnvWrapper :=
  d <- th_device dev ;;
  ret (mk_TorchVecEnvWrapper e d (length (envs e))).

Definition make_env (fully_observable : bool) (frame_stack : Z)
    (env_id : string) (seed : Z) : unit -> M SeededEnv :=
  fun _ =>
    let env := gym_make env_id in
    construct env ;;;
    env <- (if fully_observable
            then
              let env := FullyObsWrapper env in
              construct env ;;;
              let env := Minigrid2Image env in
              construct env ;;;
              let env := FrameStack env frame_stack in
              construct env ;;;
              ret env
            else
              let env := FlatObsWrapper env in
              construct env ;;;
              ret env) ;;
    Space_seed seed ;;;
    Space_seed seed ;;;
    ret (mk_SeededEnv env seed seed).

Definition make_minigrid_env (env_id : string) (num_envs : Z)
    (fully_observable : bool) (seed : Z) (frame_stack : Z) (dev : device)
    : M TorchVecEnvWrapper :=
  let envs := map (fun i => make_env fully_observable frame_stack env_id (seed + i))
                  (range num_envs) in
  envs <- SyncVectorEnv_init envs ;;
  let envs := RecordEpisodeStatistics envs in
  TorchVecEnvWrapper_init envs dev.

End Factory.

(** ** Auxiliary definitions for the statements *)

(** The kinds [process_observation_space] has a branch for; a dictionary
    is supported when each of its sub-spaces is. *)
Fixpoint supported_observation_space (s : Space) : bool :=
  match s with
  | Box _ | Discrete _ | MultiDiscrete _ | MultiBinary _ => true
  | Dict spaces =>
      (fix all (l : list (string * Space)) : bool :=
         match l with
         | [] => true
         | (_, sub) :: tl => supported_observation_space sub && all tl
         end) spaces
  | _ => false
  end.

(** The items a dictionary comprehension over [process_observation_space]
    produces. *)
Fixpoint process_items (l : list (string * Space)) : M (list (string * ObsShape)) :=
  match l with
  | [] => ret []
  | (key, subspace) :: tl =>
      v <- process_observation_space subspace ;;
      rest <- process_items tl ;;
      ret ((key, v) :: rest)
  end.

Fixpoint supported_items (l : list (string * Space)) : bool :=
  match l with
  | [] => true
  | (_, sub) :: tl => supported_observation_space sub && supported_items tl
  end.

(** ** Example inputs *)

Definition example_items : list (string * Space) :=
  [("image"%string, Box (mk_Box [2; 2; 3]%nat [] [] uint8));
   ("direction"%string, Discrete 4);
   ("inner"%string, Dict [("mission"%string, MultiDiscrete [3; 4; 5])])].

(** [spaces.Box(low=lo, high=hi, shape=sh, dtype=dt)] with scalar bounds,
    which the constructor broadcasts to the shape. *)
Definition Box_of (lo hi : Q) (sh : list nat) (dt : dtype) : Space :=
  Box (mk_Box sh (repeat lo (np_prod sh)) (repeat hi (np_prod sh)) dt).

(** ** The image-shape adapter, [Minigrid2Image] *)

(** A call that can also fail on a missing dictionary key. *)
Inductive keyed (A : Type) : Type :=
| Looked_up (m : M A)
| KeyError (key : string).
Arguments Looked_up {A} m.
Arguments KeyError {A} key.

(** [d[key]] on a Python dictionary, kept by its items. *)
Fixpoint dict_get {A} (items : list (string * A)) (key : string) : option A :=
  match items with
  | [] => None
  | (k, v) :: tl => if String.eqb k key then Some v else dict_get tl key
  end.

(** The bound 255 as the Box constructor stores it, cast to the dtype: it
    does not fit int8 and wraps to -1; as a boolean it is true. *)
Definition high_255 (dt : dtype) : Q :=
  match dt with
  | int8 => -1
  | bool_ => 1
  | _ => 255
  end.

(** [Minigrid2Image.__init__]: the observation space the adapter declares,
    from the observation space of the wrapped environment. A dictionary
    space is indexed by the key; a MultiDiscrete space indexes its array of
    counts, which rejects a string (IndexError); the other spaces cannot be
    indexed by a string (TypeError). The spaces without a shape (composite
    and text spaces) have [None] for it, which cannot be indexed; MultiBinary
    has dtype int8. *)
Definition Minigrid2Image_observation_space (env_observation_space : Space)
    : keyed Space :=
  match env_observation_space with
  | Dict spaces =>
      match dict_get spaces "image" with
      | None => KeyError "image"
      | Some image_space =>
          Looked_up
            match image_space with
            | Box b =>
                match box_shape b with
                | h :: w :: c :: _ =>
                    ret (Box_of 0 (high_255 (box_dtype b)) [c; h; w] (box_dtype b))
                | _ => raise IndexError
                end
            | MultiBinary sh =>
                match sh with
                | h :: w :: c :: _ => ret (Box_of 0 (high_255 int8) [c; h; w] int8)
                | _ => raise IndexError
                end
            | Discrete _ | MultiDiscrete _ => raise IndexError
            | Dict _ | Tuple _ | Text _ | Sequence _ => raise TypeError
            end
      end
  | MultiDiscrete _ => Looked_up (raise IndexError)
  | _ => Looked_up (raise TypeError)
  end.

(** [np.transpose(a, axes=[2, 0, 1])]: the array must have three axes; the
    element at [(k, i, j)] of the result is the element at [(i, j, k)] of
    [a]. *)
Definition np_transpose_2_0_1 (a : ndarray) : M ndarray :=
  match nd_shape a with
  | [h; w; c] =>
      ret (mk_ndarray [c; h; w] (nd_dtype a)
             (flat_map
                (fun k => flat_map
                            (fun i => map (fun j => nth (i * (w * c) + j * c + k)
                                                        (nd_data a) 0%Q)
                                          (seq 0 w))
                            (seq 0 h))
                (seq 0 c)))
  | _ => raise ValueError
  end.

(** [Minigrid2Image.observation] *)
Definition Minigrid2Image_observation (observation : list (string * ndarray))
    : keyed ndarray :=
  match dict_get observation "image" with
  | None => KeyError "image"
  | Some image => Looked_up (np_transpose_2_0_1 image)
  end.

(** The class names [process_observation_space] and [process_action_space]
    have a branch for. *)
Definition observation_kinds : list string :=
  ["Box"; "Discrete"; "MultiDiscrete"; "MultiBinary"; "Dict"]%string.
Definition action_kinds : list string :=
  ["Box"; "Discrete"; "MultiDiscrete"; "MultiBinary"]%string.

(** A vectorised environment of two instances that echoes the action as the
    observation; the first instance terminates. *)
Definition example_env_step (st : unit) (action : ndarray)
    : M (unit * (ndarray * ndarray * list bool * list bool * unit)) :=
  ret (tt, (action, mk_ndarray [2%nat] float64 [1 # 2; 0]%Q,
            [true; false], [false; false], tt)).

Definition example_action : Tensor :=
  mk_Tensor [2; 1]%nat int64 "cuda:0"%string [3; 1]%Q.

(** A raw batch of integer observations. *)
Definition int_array (sh : list nat) (dt : dtype) (vals : list Z) : ndarray :=
  mk_ndarray sh dt (map inject_Z vals).

(** The one-hot encoding of one row of a MultiDiscrete(counts) batch: the
    one-hot rows of its sub-features, each of the width of its own count, one
    after the other. *)
Definition encode_row (nvec : list Z) (row : list Z) : list Q :=
  flat_map (fun '(c, v) => one_hot_row (Z.to_nat c) v) (combine nvec row).

(** A raw batch, given by its rows, for a space of [k] sub-features. *)
Definition batch_array (k : nat) (dt : dtype) (rows : list (list Z)) : ndarray :=
  int_array [length rows; k] dt (concat rows).

(** Sub-feature [j] of every row of a batch. *)
Definition column (j : nat) (rows : list (list Z)) : list Z :=
  map (fun row => nth j row 0) rows.

(** A batch for MultiDiscrete(nvec): every row holds one class value per
    count, below that count. *)
Definition batch_in_space (nvec : list Z) (rows : list (list Z)) : Prop :=
  Forall (fun row => Forall2 (fun v c => 0 <= v < c) row nvec) rows.

(** A wrapped reset that returns a fixed observation. *)
Definition example_env_reset (st : unit) (kw : unit)
    : M (unit * (ndarray * unit)) :=
  ret (tt, (mk_ndarray [2; 3]%nat uint8 [1; 2; 3; 4; 5; 6]%Q, tt)).

(** A computation that returns [a], or raises [e], whatever warnings it
    emits. *)
Definition returns {A} (m : M A) (a : A) : Prop := exists ws, m = (ws, Ok a).
Definition raises {A} (m : M A) (e : exn) : Prop := exists ws, m = (ws, Raise e).

(** The constructor calls that build one environment instance, in order. *)
Definition construction_steps (fully_observable : bool) (frame_stack : Z)
    (env_id : string) : list Env :=
  if fully_observable
  then [gym_make env_id;
        FullyObsWrapper (gym_make env_id);
        Minigrid2Image (FullyObsWrapper (gym_make env_id));
        FrameStack (Minigrid2Image (FullyObsWrapper (gym_make env_id)))
                   frame_stack]
  else [gym_make env_id; FlatObsWrapper (gym_make env_id)].

(** A library in which every identifier is registered, every wrapper accepts
    its environment and every device string names a device. *)
Definition construct_any (e : Env) : M unit := ret tt.
Definition th_device_any (dev : device) : M device := ret dev.

(** A library in which only "MiniGrid-Empty-5x5-v0" is registered. *)
Definition construct_registered (e : Env) : M unit :=
  match e with
  | gym_make env_id =>
      if String.eqb env_id "MiniGrid-Empty-5x5-v0" then ret tt
      else raise gymnasium_Error
  | _ => ret tt
  end.

(** * Properties *)

(** ** The monad *)

Lemma bind_ret_l {A B} (a : A) (k : A -> M B) : bind (ret a) k = k a.
Proof. unfold bind, ret. destruct (k a); reflexivity. Qed.

Lemma bind_raise_l {A B} (e : exn) (k : A -> M B) : bind (raise e) k = raise e.
Proof. reflexivity. Qed.

Lemma bind_ret_r {A} (m : M A) : bind m ret = m.
Proof.
  destruct m as [ws [a | e]]; simpl; [rewrite app_nil_r |]; reflexivity.
Qed.

Lemma process_observation_space_Dict (spaces : list (string * Space)) :
  process_observation_space (Dict spaces) =
  (items <- process_items spaces ;; ret (ShapeDict items)).
Proof. reflexivity. Qed.

Lemma supported_observation_space_Dict (spaces : list (string * Space)) :
  supported_observation_space (Dict spaces) = supported_items spaces.
Proof. reflexivity. Qed.

(** Every supported observation space is processed without an exception and
    without a warning. *)
Fixpoint process_observation_space_total (s : Space) :
  supported_observation_space s = true ->
  exists r, process_observation_space s = ret r.
Proof.
  destruct s as [b | n | nvec | sh | spaces | spaces | m | f];
    try (intros _; eexists; reflexivity); try discriminate.
  rewrite process_observation_space_Dict, supported_observation_space_Dict.
  intros Hs.
  assert (exists items, process_items spaces = ret items) as [items Hitems].
  { induction spaces as [| [key sub] tl IH]; cbn in *.
    - eexists; reflexivity.
    - apply andb_prop in Hs as [Hsub Htl].
      destruct (process_observation_space_total sub Hsub) as [v Hv].
      destruct (IH Htl) as [rest Hrest].
      exists ((key, v) :: rest). rewrite Hv, Hrest. reflexivity. }
  exists (ShapeDict items). rewrite Hitems. reflexivity.
Qed.

Lemma process_items_Forall2 (spaces : list (string * Space)) :
  supported_items spaces = true ->
  exists items,
    process_items spaces = ret items /\
    Forall2 (fun kv ki => fst ki = fst kv /\
                          process_observation_space (snd kv) = ret (snd ki))
            spaces items.
Proof.
  induction spaces as [| [key sub] tl IH]; cbn; intros Hs.
  - exists []. split; [reflexivity | constructor].
  - apply andb_prop in Hs as [Hsub Htl].
    destruct (process_observation_space_total sub Hsub) as [v Hv].
    destruct (IH Htl) as (rest & Hrest & Hall).
    exists ((key, v) :: rest). rewrite Hv, Hrest. split; [reflexivity |].
    constructor; [split; [reflexivity | exact Hv] | exact Hall].
Qed.

(** C2. [process_observation_space] returns the declared shape of a Box
    space, the shape (1,) for a Discrete space, the shape (len(counts),) for
    a MultiDiscrete(counts) space, the declared shape of a MultiBinary space,
    and for a Dict space (each of whose sub-spaces is supported) a mapping
    with the same keys, in the same order, each bound to the result of
    processing the sub-space under that key. *)
Theorem process_observation_space_spec :
  (forall b, process_observation_space (Box b) = ret (Shape (box_shape b))) /\
  (forall n, process_observation_space (Discrete n) = ret (Shape [1%nat])) /\
  (forall nvec,
      process_observation_space (MultiDiscrete nvec) = ret (Shape [length nvec])) /\
  (forall sh, process_observation_space (MultiBinary sh) = ret (Shape sh)) /\
  (forall spaces,
      supported_observation_space (Dict spaces) = true ->
      exists items,
        process_observation_space (Dict spaces) = ret (ShapeDict items) /\
        Forall2 (fun kv ki => fst ki = fst kv /\
                              process_observation_space (snd kv) = ret (snd ki))
                spaces items).
Proof.
  repeat split; try reflexivity.
  intros spaces Hs. rewrite supported_observation_space_Dict in Hs.
  destruct (process_items_Forall2 spaces Hs) as (items & Hitems & Hall).
  exists items. split; [| exact Hall].
  rewrite process_observation_space_Dict, Hitems. reflexivity.
Qed.

Lemma process_observation_space_spec_witness :
  exists items,
    process_observation_space (Dict example_items) = ret (ShapeDict items) /\
    Forall2 (fun kv ki => fst ki = fst kv /\
                          process_observation_space (snd kv) = ret (snd ki))
            example_items items.
Proof.
  apply (proj2 (proj2 (proj2 (proj2 process_observation_space_spec)))
           example_items).
  reflexivity.
Defined.

(** ** Unsupported spaces *)

(** C3. A space of any kind other than Box, Discrete, MultiDiscrete,
    MultiBinary and Dict makes [process_observation_space] raise the
    unsupported-observation-space error; a space of any kind other than Box,
    Discrete, MultiDiscrete and MultiBinary (so also a Dict) makes
    [process_action_space] raise the unsupported-action-space error and
    [get_preprocess_obs_fn] raise the preprocessing-not-implemented error.
    None of them returns a value there. *)
Theorem unsupported_space_raises (s : Space) :
  (~ In (class_name s) observation_kinds ->
   process_observation_space s =
   raise (NotImplementedError (observation_space_is_not_supported s))) /\
  (~ In (class_name s) action_kinds ->
   process_action_space s =
   raise (NotImplementedError (action_space_is_not_supported s)) /\
   get_preprocess_obs_fn s =
   raise (NotImplementedError (Preprocessing_not_implemented_for s))).
Proof.
  split; intros Hkind;
    destruct s; try (split; reflexivity); try reflexivity;
    exfalso; apply Hkind; cbn; tauto.
Qed.

Lemma unsupported_space_raises_witness :
  let s := Tuple [Discrete 2; Discrete 3] in
  process_observation_space s =
  raise (NotImplementedError (observation_space_is_not_supported s)) /\
  process_action_space s =
  raise (NotImplementedError (action_space_is_not_supported s)) /\
  get_preprocess_obs_fn s =
  raise (NotImplementedError (Preprocessing_not_implemented_for s)).
Proof.
  intros s. split.
  - apply (proj1 (unsupported_space_raises s)). cbn.
    intros [H | [H | [H | [H | [H | []]]]]]; discriminate H.
  - apply (proj2 (unsupported_space_raises s)). cbn.
    intros [H | [H | [H | [H | []]]]]; discriminate H.
Defined.

(** ** [process_action_space] *)

(** C1 does not hold at a Box space of shape (2, 2): [low[0]] is a row of
    two elements, [float] rejects it, and the call raises instead of
    returning a tuple. *)
Lemma process_action_space_Box_2x2_raises :
  process_action_space (Box_of (-1) 1 [2; 2]%nat float32) = raise TypeError /\
  forall info, process_action_space (Box_of (-1) 1 [2; 2]%nat float32) <> ret info.
Proof.
  assert (process_action_space (Box_of (-1) 1 [2; 2]%nat float32) = raise TypeError)
    as H by reflexivity.
  split; [exact H |]. intros info. rewrite H. discriminate.
Qed.

(** X4. Where the range cannot be read, the call raises: the first axis is
    missing or empty (Box, MultiDiscrete, MultiBinary), or the first slice of
    a well-formed Box does not hold exactly one element. *)
Lemma process_action_space_raises :
  (forall b, box_shape b = [] -> process_action_space (Box b) = raise IndexError) /\
  (forall b rest,
     box_shape b = O :: rest -> process_action_space (Box b) = raise IndexError) /\
  (forall b d0 rest,
     box_shape b = S d0 :: rest ->
     length (box_low b) = np_prod (box_shape b) ->
     np_prod rest <> 1%nat ->
     process_action_space (Box b) = raise TypeError) /\
  process_action_space (MultiDiscrete []) = raise IndexError /\
  process_action_space (MultiBinary []) = raise IndexError.
Proof.
  repeat split; try reflexivity.
  - intros b Hshape. unfold process_action_space, np_getitem0, low.
    cbn [nd_shape]. now rewrite Hshape.
  - intros b rest Hshape. unfold process_action_space, np_getitem0, low.
    cbn [nd_shape]. now rewrite Hshape.
  - intros b d0 rest Hshape Hlen Hrest.
    unfold process_action_space, np_getitem0, low. cbn [nd_shape nd_dtype nd_data].
    rewrite Hshape, bind_ret_l. unfold py_float. cbn [nd_data].
    rewrite Hshape in Hlen. cbn [np_prod fold_right] in Hlen. fold (np_prod rest) in Hlen.
    assert (length (firstn (np_prod rest) (box_low b)) = np_prod rest) as Hfirst
      by (apply firstn_length_le; nia).
    destruct (firstn (np_prod rest) (box_low b)) as [| x [| y l]];
      cbn in Hfirst; try reflexivity.
    congruence.
Qed.

(** C1, amended. [process_action_space] returns the shape of the space and
    - for Discrete(n), n >= 1: dimension n, tag "Discrete", range [0, n-1];
    - for a Box whose first axis is not empty and whose first slice [low[0]]
      holds a single element (every non-empty one-axis shape is such):
      dimension the product of the shape, tag "Box", range [low[0], high[0]];
    - for MultiDiscrete(counts) with at least one count: dimension
      len(counts), tag "MultiDiscrete", range [0, counts[0]-1];
    - for MultiBinary with at least one axis: dimension shape[0], tag
      "MultiBinary", range [0, 1]. *)
Theorem process_action_space_spec :
  (forall n, 1 <= n ->
     process_action_space (Discrete n) =
     ret (Some [], n, "Discrete"%string, (PyInt 0, PyInt (n - 1)))) /\
  (forall b d0 rest l ls h hs,
     box_shape b = S d0 :: rest -> np_prod rest = 1%nat ->
     box_low b = l :: ls -> box_high b = h :: hs ->
     process_action_space (Box b) =
     ret (Some (box_shape b), Z.of_nat (np_prod (box_shape b)), "Box"%string,
          (PyFloat l, PyFloat h))) /\
  (forall c0 cs,
     process_action_space (MultiDiscrete (c0 :: cs)) =
     ret (Some [length (c0 :: cs)], Z.of_nat (length (c0 :: cs)),
          "MultiDiscrete"%string, (PyInt 0, PyInt (c0 - 1)))) /\
  (forall d0 rest,
     process_action_space (MultiBinary (d0 :: rest)) =
     ret (Some (d0 :: rest), Z.of_nat d0, "MultiBinary"%string,
          (PyInt 0, PyInt 1))).
Proof.
  repeat split; try reflexivity.
  intros b d0 rest l ls h hs Hshape Hrest Hlow Hhigh.
  unfold process_action_space, np_getitem0, low, high, py_float. cbn.
  rewrite Hshape, Hrest, Hlow, Hhigh. reflexivity.
Qed.

Lemma process_action_space_spec_witness :
  process_action_space (Discrete 6) =
  ret (Some [], 6, "Discrete"%string, (PyInt 0, PyInt 5)) /\
  process_action_space (Box_of (-1) 1 [3]%nat float32) =
  ret (Some [3%nat], 3, "Box"%string, (PyFloat (-1), PyFloat 1)).
Proof.
  split.
  - apply (proj1 process_action_space_spec 6). lia.
  - apply (proj1 (proj2 process_action_space_spec)
             (mk_Box [3%nat] (repeat (-1)%Q 3) (repeat 1%Q 3) float32)
             2%nat [] (-1)%Q (repeat (-1)%Q 2) 1%Q (repeat 1%Q 2));
      reflexivity.
Defined.

(** ** The image-space classifier *)

Lemma ltb_spec_dec (a b : nat) :
  ((a <? b)%nat = true /\ (a < b)%nat) \/ ((a <? b)%nat = false /\ (b <= a)%nat).
Proof.
  destruct (a <? b)%nat eqn:E; [left | right]; split; try reflexivity.
  - now apply Nat.ltb_lt.
  - now apply Nat.ltb_ge.
Qed.

(** C5. On a space with three axes of extents d0, d1, d2,
    [is_image_space_channels_first] returns true exactly when axis 0 holds
    the smallest extent (d0 <= d1 and d0 <= d2). When the smallest axis, the
    first one holding the minimum as [np.argmin] finds it, is the middle
    axis (d1 < d0 and d1 <= d2), it emits the warning and returns false; it
    emits no warning otherwise. *)
Theorem is_image_space_channels_first_spec (b : BoxSpace) (d0 d1 d2 : nat) :
  box_shape b = [d0; d1; d2] ->
  exists ws r,
    is_image_space_channels_first b = (ws, Ok r) /\
    (r = true <-> (d0 <= d1 /\ d0 <= d2)%nat) /\
    ((d1 < d0 /\ d1 <= d2)%nat ->
     ws = [channels_last_second_dimension_smallest] /\ r = false) /\
    (~ (d1 < d0 /\ d1 <= d2)%nat -> ws = []).
Proof.
  intros Hshape. unfold is_image_space_channels_first. rewrite Hshape.
  cbn [np_argmin argmin_from].
  destruct (ltb_spec_dec d1 d0) as [[E1 H1] | [E1 H1]]; rewrite E1.
  - destruct (ltb_spec_dec d2 d1) as [[E2 H2] | [E2 H2]]; rewrite E2;
      cbn; do 2 eexists; (split; [reflexivity |]);
      repeat split; intros; try lia; try discriminate; try reflexivity.
  - destruct (ltb_spec_dec d2 d0) as [[E2 H2] | [E2 H2]]; rewrite E2;
      cbn; do 2 eexists; (split; [reflexivity |]);
      repeat split; intros; try lia; try discriminate; try reflexivity.
Qed.

Lemma is_image_space_channels_first_spec_witness :
  exists ws r,
    is_image_space_channels_first (mk_Box [5; 3; 4]%nat [] [] uint8) = (ws, Ok r) /\
    (r = true <-> (5 <= 3 /\ 5 <= 4)%nat) /\
    ((3 < 5 /\ 3 <= 4)%nat ->
     ws = [channels_last_second_dimension_smallest] /\ r = false) /\
    (~ (3 < 5 /\ 3 <= 4)%nat -> ws = []).
Proof.
  apply (is_image_space_channels_first_spec
           (mk_Box [5; 3; 4]%nat [] [] uint8) 5 3 4).
  reflexivity.
Defined.

Lemma np_any_ne_false (a : list Q) (c : Q) :
  np_any_ne a c = false -> Forall (fun x => x == c)%Q a.
Proof.
  unfold np_any_ne. induction a as [| x tl IH]; cbn; intros H; constructor.
  - apply Qeq_bool_iff. destruct (Qeq_bool x c); [reflexivity | discriminate].
  - apply IH. destruct (Qeq_bool x c); [exact H | discriminate].
Qed.

Lemma np_any_ne_repeat (c : Q) (n : nat) : np_any_ne (repeat c n) c = false.
Proof.
  unfold np_any_ne. induction n as [| n IH]; cbn; [reflexivity |].
  rewrite IH, orb_false_r.
  assert (Qeq_bool c c = true) as -> by (apply Qeq_bool_iff; reflexivity).
  reflexivity.
Qed.

(** C4. [is_image_space] returns true only for a Box space with exactly
    three axes such that, unless [normalized_image] is set, the dtype is
    uint8 and every lower bound is 0 and every upper bound is 255, and, when
    [check_channels] is set, the number of channels (the extent of axis 0
    if [is_image_space_channels_first] says so, of the last axis otherwise)
    is 1, 3 or 4. It returns true on the Box of shape (3, 84, 84), dtype
    uint8 and bounds 0 and 255, and false on the same shape and bounds with a
    floating dtype when the dtype check is on. *)
Theorem is_image_space_spec :
  (forall s check_channels normalized_image ws,
     is_image_space s check_channels normalized_image = (ws, Ok true) ->
     exists b,
       s = Box b /\
       length (box_shape b) = 3%nat /\
       (normalized_image = false ->
        box_dtype b = uint8 /\
        Forall (fun x => x == 0)%Q (box_low b) /\
        Forall (fun x => x == 255)%Q (box_high b)) /\
       (check_channels = true ->
        exists wsc channels_first n_channels,
          is_image_space_channels_first b = (wsc, Ok channels_first) /\
          (if channels_first : bool then getitem (box_shape b) 0
           else getitem_last (box_shape b)) = ret n_channels /\
          In n_channels [1; 3; 4]%nat)) /\
  (forall check_channels normalized_image,
     is_image_space (Box_of 0 255 [3; 84; 84]%nat uint8)
                    check_channels normalized_image = ret true) /\
  (forall dt check_channels,
     is_floating dt = true ->
     is_image_space (Box_of 0 255 [3; 84; 84]%nat dt) check_channels false
     = ret false).
Proof.
  split; [| split].
  - intros s cc ni ws H.
    destruct s as [b | | | | | | |]; try discriminate H.
    exists b. split; [reflexivity |].
    unfold is_image_space in H.
    destruct (length (box_shape b) =? 3)%nat eqn:Hlen; [| discriminate H].
    apply Nat.eqb_eq in Hlen. split; [exact Hlen |].
    destruct (negb ni && negb (dtype_eqb (box_dtype b) uint8)) eqn:Hdt;
      [discriminate H |].
    destruct (negb ni && (np_any_ne (box_low b) 0 || np_any_ne (box_high b) 255))
      eqn:Hbounds; [discriminate H |].
    split.
    + intros ->. cbn in Hdt, Hbounds.
      apply negb_false_iff in Hdt.
      apply orb_false_iff in Hbounds as [Hlo Hhi].
      split; [| split; apply np_any_ne_false; assumption].
      destruct (box_dtype b); try discriminate Hdt; reflexivity.
    + intros ->. cbn [negb] in H.
      destruct (is_image_space_channels_first b) as [wsc [cf | e]] eqn:Hcf;
        [| discriminate H].
      cbn [bind] in H.
      destruct (if cf then getitem (box_shape b) 0 else getitem_last (box_shape b))
        as [wsn [n | e]] eqn:Hn; [| destruct wsn; discriminate H].
      assert (wsn = []) as ->.
      { destruct cf; [unfold getitem in Hn | unfold getitem_last in Hn].
        - destruct (nth_error (box_shape b) 0); inversion Hn; reflexivity.
        - destruct (rev (box_shape b)); inversion Hn; reflexivity. }
      exists wsc, cf, n. split; [reflexivity |]. split; [exact Hn |].
      cbn in H. inversion H as [[Hws Hin]].
      unfold in_1_3_4 in Hin.
      apply orb_true_iff in Hin as [Hin | Hin];
        [apply orb_true_iff in Hin as [Hin | Hin] |];
        apply Nat.eqb_eq in Hin; subst n; cbn; tauto.
  - intros cc ni. unfold Box_of, is_image_space.
    cbn [box_shape box_dtype box_low box_high length Nat.eqb dtype_eqb negb].
    rewrite !np_any_ne_repeat, !andb_false_r. cbn [orb].
    destruct cc; reflexivity.
  - intros dt cc Hfl. unfold Box_of, is_image_space.
    cbn [box_shape box_dtype box_low box_high length Nat.eqb negb].
    destruct dt; try discriminate Hfl; reflexivity.
Qed.

Lemma is_image_space_spec_witness :
  exists b,
    Box_of 0 255 [84; 84; 4]%nat uint8 = Box b /\
    length (box_shape b) = 3%nat /\
    (false = false ->
     box_dtype b = uint8 /\
     Forall (fun x => x == 0)%Q (box_low b) /\
     Forall (fun x => x == 255)%Q (box_high b)) /\
    (true = true ->
     exists wsc channels_first n_channels,
       is_image_space_channels_first b = (wsc, Ok channels_first) /\
       (if channels_first : bool then getitem (box_shape b) 0
        else getitem_last (box_shape b)) = ret n_channels /\
       In n_channels [1; 3; 4]%nat).
Proof.
  apply (proj1 is_image_space_spec (Box_of 0 255 [84; 84; 4]%nat uint8)
           true false []).
  vm_compute. reflexivity.
Defined.

(** ** The batched tensor adapter *)

Lemma concat_flag_rows (flags : list bool) :
  concat (map (fun b : bool => if b then [1%Q] else [0%Q]) flags) =
  map (fun b : bool => if b then 1%Q else 0%Q) flags.
Proof.
  induction flags as [| x l IH]; cbn; [reflexivity |].
  rewrite IH. destruct x; reflexivity.
Qed.

Lemma flags_as_tensor_column (flags : list bool) (dt : dtype) (dev : device) :
  flags <> [] ->
  flags_as_tensor flags dt dev =
  mk_Tensor [length flags; 1%nat] dt dev
            (map (fun b : bool => if b then 1%Q else 0%Q) flags).
Proof.
  intros Hne. unfold flags_as_tensor.
  rewrite concat_flag_rows, length_map.
  destruct flags as [| b tl]; [contradiction | reflexivity].
Qed.

Section BatchedTensorAdapterProperties.

Variables (env_state info_dict : Type).
Variable env_step :
  env_state -> ndarray ->
  M (env_state * (ndarray * ndarray * list bool * list bool * info_dict)).

(** C8. Let the adapter wrap N >= 1 environments and be configured with
    device [dev], and let the wrapped vectorised step, called on the
    squeezed action, return an observation, N rewards and N terminated and
    N truncated flags. Then [step] returns the observation as a tensor on
    [dev], and the reward, the terminated and the truncated values as
    tensors of shape (N, 1) and dtype float32 on [dev]; the reward column
    holds the N rewards, and a flag column holds 1 where the flag is true
    and 0 where it is false. *)
Theorem step_spec (dev : device) (st st' : env_state) (action : Tensor)
    (a0 a1 : nat) (arest : list nat) (N : nat) (ws : list warning)
    (obs reward : ndarray) (terminated truncated : list bool)
    (info : info_dict) :
  t_shape action = a0 :: a1 :: arest ->
  (forall squeezed,
      squeeze_1 action = ret squeezed ->
      env_step st (cpu_numpy squeezed) =
      (ws, Ok (st', (obs, reward, terminated, truncated, info)))) ->
  (1 <= N)%nat ->
  nd_shape reward = [N] ->
  length terminated = N ->
  length truncated = N ->
  step env_step dev st action =
  (ws, Ok (st',
           (mk_Tensor (nd_shape obs) (nd_dtype obs) dev (nd_data obs),
            mk_Tensor [N; 1%nat] float32 dev (nd_data reward),
            mk_Tensor [N; 1%nat] float32 dev
                      (map (fun b : bool => if b then 1%Q else 0%Q) terminated),
            mk_Tensor [N; 1%nat] float32 dev
                      (map (fun b : bool => if b then 1%Q else 0%Q) truncated),
            info))).
Proof.
  intros Haction Hstep HN Hreward Hterm Htrunc.
  unfold step.
  assert (exists squeezed, squeeze_1 action = ret squeezed) as [sq Hsq].
  { unfold squeeze_1. rewrite Haction. eexists; reflexivity. }
  rewrite Hsq, bind_ret_l, (Hstep sq Hsq). cbn [bind].
  unfold unsqueeze_1, as_tensor_dtype_on, as_tensor_on.
  cbn [t_shape t_dtype t_device t_data]. rewrite Hreward. cbn.
  rewrite !flags_as_tensor_column, Hterm, Htrunc, app_nil_r.
  - reflexivity.
  - intros ->. cbn in Htrunc. lia.
  - intros ->. cbn in Hterm. lia.
Qed.

End BatchedTensorAdapterProperties.

Lemma step_spec_witness :
  step example_env_step "cuda:0"%string tt example_action =
  ret (tt,
       (mk_Tensor [2%nat] int64 "cuda:0"%string [3; 1]%Q,
        mk_Tensor [2; 1]%nat float32 "cuda:0"%string [1 # 2; 0]%Q,
        mk_Tensor [2; 1]%nat float32 "cuda:0"%string [1; 0]%Q,
        mk_Tensor [2; 1]%nat float32 "cuda:0"%string [0; 0]%Q,
        tt)).
Proof.
  apply (step_spec unit unit example_env_step "cuda:0"%string tt tt
           example_action 2 1 [] 2 []
           (mk_ndarray [2%nat] int64 [3; 1]%Q)
           (mk_ndarray [2%nat] float64 [1 # 2; 0]%Q)
           [true; false] [false; false] tt).
  - reflexivity.
  - intros squeezed Hsq. inversion Hsq. reflexivity.
  - lia.
  - reflexivity.
  - reflexivity.
  - reflexivity.
Defined.

(** ** The environment factory *)

Lemma nth_error_range (n i : Z) :
  0 <= i < n -> nth_error (range n) (Z.to_nat i) = Some i.
Proof.
  intros Hi. unfold range.
  rewrite nth_error_map, nth_error_seq.
  assert ((Z.to_nat i <? Z.to_nat n)%nat = true) as ->
    by (apply Nat.ltb_lt; lia).
  cbn. f_equal. lia.
Qed.

Lemma returns_ret {A} (a : A) : returns (ret a) a.
Proof. exists []. reflexivity. Qed.

Lemma returns_bind {A B} (m : M A) (k : A -> M B) (a : A) (b : B) :
  returns m a -> returns (k a) b -> returns (bind m k) b.
Proof.
  intros [ws1 ->] [ws2 Hk]. exists (ws1 ++ ws2). cbn. now rewrite Hk.
Qed.

Lemma raises_bind_l {A B} (m : M A) (k : A -> M B) (e : exn) :
  raises m e -> raises (bind m k) e.
Proof. intros [ws ->]. exists ws. reflexivity. Qed.

Lemma raises_bind_r {A B} (m : M A) (k : A -> M B) (a : A) (e : exn) :
  returns m a -> raises (k a) e -> raises (bind m k) e.
Proof.
  intros [ws1 ->] [ws2 Hk]. exists (ws1 ++ ws2). cbn. now rewrite Hk.
Qed.

Lemma mapM_map {A B C} (f : B -> M C) (h : A -> B) (l : list A) :
  mapM f (map h l) = mapM (fun x => f (h x)) l.
Proof. induction l as [| x l IH]; cbn; [| rewrite IH]; reflexivity. Qed.

Lemma mapM_returns {A B} (f : A -> M B) (g : A -> B) (l : list A) :
  (forall x, In x l -> returns (f x) (g x)) -> returns (mapM f l) (map g l).
Proof.
  induction l as [| x l IH]; cbn [mapM map]; intros H; [apply returns_ret |].
  eapply returns_bind; [apply H; now left |].
  eapply returns_bind; [apply IH; intros y Hy; apply H; now right |].
  apply returns_ret.
Qed.

Lemma Space_seed_nonnegative (seed : Z) : 0 <= seed -> Space_seed seed = ret tt.
Proof.
  intros H. unfold Space_seed.
  assert ((seed <? 0) = false) as -> by (apply Z.ltb_ge; exact H). reflexivity.
Qed.

Lemma Space_seed_negative (seed : Z) :
  seed < 0 -> Space_seed seed = raise gymnasium_Error.
Proof.
  intros H. unfold Space_seed.
  assert ((seed <? 0) = true) as -> by (apply Z.ltb_lt; exact H). reflexivity.
Qed.

Lemma in_range (n i : Z) : In i (range n) -> 0 <= i < n.
Proof.
  unfold range. intros H. apply in_map_iff in H as (k & <- & Hk).
  apply in_seq in Hk. lia.
Qed.

Lemma length_range (n : Z) : length (range n) = Z.to_nat n.
Proof. unfold range. now rewrite length_map, length_seq. Qed.

Section FactoryProperties.

Variable construct : Env -> M unit.
Variable th_device : device -> M device.

(** One instance is built and seeded when the library accepts each
    constructor call and the seed is not negative. *)
Lemma make_env_returns (fully_observable : bool) (frame_stack : Z)
    (env_id : string) (seed : Z) :
  0 <= seed ->
  (forall e, In e (construction_steps fully_observable frame_stack env_id) ->
             returns (construct e) tt) ->
  returns (make_env construct fully_observable frame_stack env_id seed tt)
          (mk_SeededEnv
             (if fully_observable
              then FrameStack (Minigrid2Image (FullyObsWrapper (gym_make env_id)))
                              frame_stack
              else FlatObsWrapper (gym_make env_id))
             seed seed).
Proof.
  intros Hseed Hsteps. unfold make_env.
  rewrite (Space_seed_nonnegative seed Hseed).
  unfold construction_steps in Hsteps.
  destruct fully_observable.
  - eapply returns_bind; [apply Hsteps; cbn; tauto |].
    eapply returns_bind.
    + eapply returns_bind; [apply Hsteps; cbn; tauto |].
      eapply returns_bind; [apply Hsteps; cbn; tauto |].
      eapply returns_bind; [apply Hsteps; cbn; tauto |].
      apply returns_ret.
    + rewrite !bind_ret_l. apply returns_ret.
  - eapply returns_bind; [apply Hsteps; cbn; tauto |].
    eapply returns_bind.
    + eapply returns_bind; [apply Hsteps; cbn; tauto |].
      apply returns_ret.
    + rewrite !bind_ret_l. apply returns_ret.
Qed.

(** The vectorised environment of the factory, when every instance is
    built. *)
Lemma SyncVectorEnv_init_returns (fully_observable : bool) (frame_stack : Z)
    (env_id : string) (N seed : Z) :
  1 <= N -> 0 <= seed ->
  (forall e, In e (construction_steps fully_observable frame_stack env_id) ->
             returns (construct e) tt) ->
  returns
    (SyncVectorEnv_init
       (map (fun i => make_env construct fully_observable frame_stack env_id
                               (seed + i))
            (range N)))
    (SyncVectorEnv
       (map (fun i =>
               mk_SeededEnv
                 (if fully_observable
                  then FrameStack
                         (Minigrid2Image (FullyObsWrapper (gym_make env_id)))
                         frame_stack
                  else FlatObsWrapper (gym_make env_id))
                 (seed + i) (seed + i))
            (range N))).
Proof.
  intros HN Hseed Hsteps. unfold SyncVectorEnv_init.
  eapply returns_bind.
  - rewrite mapM_map. apply mapM_returns. intros i Hi. apply in_range in Hi.
    apply make_env_returns; [lia | exact Hsteps].
  - destruct (map _ (range N)) as [| e es] eqn:Hes; [| apply returns_ret].
    apply (f_equal (@length SeededEnv)) in Hes.
    rewrite length_map, length_range in Hes. cbn in Hes. lia.
Qed.

(** C9, amended. [make_minigrid_env] called with environment count N >= 1
    and a seed s >= 0, when the library accepts the constructor calls for the
    identifier and the device string, builds N environment instances; for
    every i in 0..N-1, instance i has its action and observation spaces
    seeded with s + i, and is the environment made from the identifier
    wrapped, when [fully_observable] is set, with the full-observability
    transform, then the image-shape adapter, then the frame-stacking
    transform of the given depth, and wrapped with the flattening transform
    otherwise. *)
Theorem make_minigrid_env_spec (env_id : string) (N : Z)
    (fully_observable : bool) (seed frame_stack : Z) (dev d : device) :
  1 <= N ->
  0 <= seed ->
  (forall e, In e (construction_steps fully_observable frame_stack env_id) ->
             returns (construct e) tt) ->
  returns (th_device dev) d ->
  exists w,
    returns (make_minigrid_env construct th_device env_id N fully_observable
                               seed frame_stack dev) w /\
    length (envs (env w)) = Z.to_nat N /\
    num_envs w = Z.to_nat N /\
    _device w = d /\
    forall i, 0 <= i < N ->
      nth_error (envs (env w)) (Z.to_nat i) =
      Some (mk_SeededEnv
              (if fully_observable
               then FrameStack (Minigrid2Image (FullyObsWrapper (gym_make env_id)))
                               frame_stack
               else FlatObsWrapper (gym_make env_id))
              (seed + i) (seed + i)).
Proof.
  intros HN Hseed Hsteps Hdev.
  eexists. split.
  - unfold make_minigrid_env.
    eapply returns_bind;
      [apply SyncVectorEnv_init_returns; eassumption |].
    unfold TorchVecEnvWrapper_init.
    eapply returns_bind; [exact Hdev | apply returns_ret].
  - cbn [env envs num_envs _device].
    rewrite length_map, length_range. repeat split.
    intros i Hi. rewrite nth_error_map, (nth_error_range N i Hi). reflexivity.
Qed.

End FactoryProperties.

(** C9 does not hold at the seed -1: seeding the spaces of the first
    instance raises, also when the library accepts every constructor call
    and every device, and no batch is built. *)
Lemma make_minigrid_env_negative_seed_raises :
  make_minigrid_env construct_any th_device_any
                    "MiniGrid-Empty-5x5-v0"%string 4 true (-1) 1 cpu
  = raise gymnasium_Error /\
  forall ws w,
    make_minigrid_env construct_any th_device_any
                      "MiniGrid-Empty-5x5-v0"%string 4 true (-1) 1 cpu
    <> (ws, Ok w).
Proof.
  assert (make_minigrid_env construct_any th_device_any
                            "MiniGrid-Empty-5x5-v0"%string 4 true (-1) 1 cpu
          = raise gymnasium_Error) as H by reflexivity.
  split; [exact H |]. intros ws w. rewrite H. discriminate.
Qed.

Lemma make_minigrid_env_spec_witness :
  exists w,
    returns (make_minigrid_env construct_registered th_device_any
                               "MiniGrid-Empty-5x5-v0"%string 4 true 7 3 cpu) w /\
    length (envs (env w)) = 4%nat /\
    num_envs w = 4%nat /\
    _device w = cpu /\
    forall i, 0 <= i < 4 ->
      nth_error (envs (env w)) (Z.to_nat i) =
      Some (mk_SeededEnv
              (FrameStack
                 (Minigrid2Image
                    (FullyObsWrapper (gym_make "MiniGrid-Empty-5x5-v0"%string)))
                 3)
              (7 + i) (7 + i)).
Proof.
  apply (make_minigrid_env_spec construct_registered th_device_any
           "MiniGrid-Empty-5x5-v0"%string 4 true 7 3 cpu cpu).
  - lia.
  - lia.
  - intros e He. cbn in He.
    destruct He as [<- | [<- | [<- | [<- | []]]]]; exists []; reflexivity.
  - exists []. reflexivity.
Defined.

(** ** One-hot encoding *)

Lemma Qtrunc_inject_Z (z : Z) : Qtrunc (inject_Z z) = z.
Proof. unfold Qtrunc, inject_Z. cbn. apply Z.quot_1_r. Qed.

Lemma map_Qtrunc_inject_Z (vals : list Z) :
  map Qtrunc (map inject_Z vals) = vals.
Proof.
  rewrite map_map. rewrite <- (map_id vals) at 2.
  apply map_ext. exact Qtrunc_inject_Z.
Qed.

Lemma long_int_data (t : Tensor) (vals : list Z) :
  t_data t = map inject_Z vals -> t_data (long t) = map inject_Z vals.
Proof.
  intros H. unfold long. cbn [t_data]. rewrite H, map_map.
  apply map_ext. intros z. now rewrite Qtrunc_inject_Z.
Qed.

Lemma list_min_lower (lo : Z) (vs : list Z) (v : Z) :
  lo <= v -> Forall (fun x => lo <= x) vs -> lo <= list_min v vs.
Proof.
  unfold list_min. revert v.
  induction vs as [| x vs IH]; cbn; intros v Hv Hvs; [exact Hv |].
  inversion Hvs; subst. apply IH; [lia | assumption].
Qed.

Lemma list_max_upper (hi : Z) (vs : list Z) (v : Z) :
  v < hi -> Forall (fun x => x < hi) vs -> list_max v vs < hi.
Proof.
  unfold list_max. revert v.
  induction vs as [| x vs IH]; cbn; intros v Hv Hvs; [exact Hv |].
  inversion Hvs; subst. apply IH; [lia | assumption].
Qed.

(** [F.one_hot] on an index tensor whose values are class values. *)
Lemma one_hot_in_range (t : Tensor) (vals : list Z) (n : Z) :
  t_dtype t = int64 ->
  t_data t = map inject_Z vals ->
  1 <= n ->
  Forall (fun v => 0 <= v < n) vals ->
  one_hot t n =
  ret (mk_Tensor (t_shape t ++ [Z.to_nat n]) int64 (t_device t)
                 (flat_map (one_hot_row (Z.to_nat n)) vals)).
Proof.
  intros Hdt Hdata Hn Hvals. unfold one_hot.
  rewrite Hdt, Hdata, map_Qtrunc_inject_Z. cbn [dtype_eqb negb].
  destruct vals as [| v vs].
  - assert ((n <=? 0) = false) as -> by lia. reflexivity.
  - inversion Hvals as [| ? ? Hv Hvs]; subst.
    assert ((list_min v vs <? 0) = false) as ->.
    { apply Z.ltb_ge. apply list_min_lower; [lia |].
      eapply Forall_impl; [| exact Hvs]. cbn. intros; lia. }
    assert ((n =? -1) = false) as -> by lia.
    assert ((list_max v vs <? n) = true) as ->.
    { apply Z.ltb_lt. apply list_max_upper; [lia |].
      eapply Forall_impl; [| exact Hvs]. cbn. intros; lia. }
    rewrite bind_ret_l. reflexivity.
Qed.

Lemma length_one_hot_row (w : nat) (v : Z) : length (one_hot_row w v) = w.
Proof. unfold one_hot_row. now rewrite length_map, length_seq. Qed.

Lemma nth_map_lt {A B} (f : A -> B) (l : list A) (j : nat) (d : B) (d' : A) :
  (j < length l)%nat -> nth j (map f l) d = f (nth j l d').
Proof.
  revert j. induction l as [| x l IH]; cbn; intros j Hj; [lia |].
  destruct j as [| j]; [reflexivity | apply IH; lia].
Qed.

Lemma nth_one_hot_row (w : nat) (v : Z) (j : nat) :
  (j < w)%nat ->
  nth j (one_hot_row w v) 0%Q = if Z.of_nat j =? v then 1%Q else 0%Q.
Proof.
  intros Hj. unfold one_hot_row.
  rewrite (nth_map_lt _ _ _ _ O) by (now rewrite length_seq).
  rewrite seq_nth by exact Hj. reflexivity.
Qed.

(** C6. For a Discrete(n) space, n >= 1, [get_preprocess_obs_fn] returns a
    function that maps a raw batch of class values (each in 0..n-1), of any
    shape, to the tensor with one more axis of extent n that holds, for each
    value v, a row of width n whose entry at index v is 1 and whose other
    entries are 0 (the tensor keeps the index dtype: this path applies no
    float cast). For Discrete(5) and the raw values [0, 2, 4] the result has
    shape (3, 5) and the rows 10000, 00100, 00001. *)
Theorem preprocess_Discrete_one_hot :
  (forall n sh dt vals,
     1 <= n ->
     Forall (fun v => 0 <= v < n) vals ->
     exists f,
       get_preprocess_obs_fn (Discrete n) = ret f /\
       f (int_array sh dt vals) =
       ret (mk_Tensor (sh ++ [Z.to_nat n]) int64 cpu
                      (flat_map (one_hot_row (Z.to_nat n)) vals))) /\
  (forall n v,
     0 <= v < n ->
     length (one_hot_row (Z.to_nat n) v) = Z.to_nat n /\
     forall j, (j < Z.to_nat n)%nat ->
       nth j (one_hot_row (Z.to_nat n) v) 0%Q =
       if (j =? Z.to_nat v)%nat then 1%Q else 0%Q) /\
  (exists f,
     get_preprocess_obs_fn (Discrete 5) = ret f /\
     f (int_array [3%nat] int64 [0; 2; 4]) =
     ret (mk_Tensor [3; 5]%nat int64 cpu
                    [1; 0; 0; 0; 0;
                     0; 0; 1; 0; 0;
                     0; 0; 0; 0; 1]%Q)).
Proof.
  split; [| split].
  - intros n sh dt vals Hn Hvals.
    eexists. split; [reflexivity |]. cbn beta.
    rewrite (one_hot_in_range _ vals n); try assumption; try reflexivity.
    apply long_int_data. reflexivity.
  - intros n v Hv. split; [apply length_one_hot_row |].
    intros j Hj. rewrite nth_one_hot_row by exact Hj.
    destruct (Nat.eqb_spec j (Z.to_nat v)) as [-> | Hne].
    + assert ((Z.of_nat (Z.to_nat v) =? v) = true) as -> by (apply Z.eqb_eq; lia). reflexivity.
    + assert ((Z.of_nat j =? v) = false) as -> by (apply Z.eqb_neq; lia). reflexivity.
  - eexists. split; reflexivity.
Qed.

Lemma preprocess_Discrete_one_hot_witness :
  exists f,
    get_preprocess_obs_fn (Discrete 3) = ret f /\
    f (int_array [2; 1]%nat int32 [2; 0]) =
    ret (mk_Tensor [2; 1; 3]%nat int64 cpu [0; 0; 1; 1; 0; 0]%Q).
Proof.
  apply (proj1 preprocess_Discrete_one_hot 3 [2; 1]%nat int32 [2; 0]).
  - lia.
  - repeat constructor; lia.
Defined.

(** ** Rows, columns and concatenation *)

Lemma rows_of_concat (rows : list (list Q)) (w : nat) :
  Forall (fun row => length row = w) rows ->
  rows_of (length rows) w (concat rows) = rows.
Proof.
  induction 1 as [| row rows Hrow Hrows IH]; cbn; [reflexivity |].
  rewrite <- Hrow at 1 3.
  rewrite firstn_app, firstn_all, Nat.sub_diag, firstn_O, app_nil_r.
  rewrite skipn_app, skipn_all, Nat.sub_diag, skipn_O. cbn.
  subst w. now rewrite IH.
Qed.

Lemma rows_of_flat_map {A} (f : A -> list Q) (l : list A) (w : nat) :
  (forall x, length (f x) = w) ->
  rows_of (length l) w (flat_map f l) = map f l.
Proof.
  intros Hf. rewrite flat_map_concat_map.
  rewrite <- (length_map f l). apply rows_of_concat.
  apply Forall_forall. intros row Hin.
  apply in_map_iff in Hin as (x & <- & _). apply Hf.
Qed.

Lemma firstn_1_skipn {A} (j : nat) (l : list A) (d : A) :
  (j < length l)%nat -> firstn 1 (skipn j l) = [nth j l d].
Proof.
  revert j. induction l as [| x l IH]; cbn; intros j Hj; [lia |].
  destruct j as [| j]; cbn; [reflexivity | apply IH; lia].
Qed.

Lemma flat_map_singleton {A B} (f : A -> B) (l : list A) :
  flat_map (fun x => [f x]) l = map f l.
Proof. induction l as [| x l IH]; cbn; [| rewrite IH]; reflexivity. Qed.

Lemma flat_map_map {A B C} (f : B -> list C) (g : A -> B) (l : list A) :
  flat_map f (map g l) = flat_map (fun x => f (g x)) l.
Proof. induction l as [| x l IH]; cbn; [| rewrite IH]; reflexivity. Qed.

Lemma flat_map_ext_in {A B} (f g : A -> list B) (l : list A) :
  (forall x, In x l -> f x = g x) -> flat_map f l = flat_map g l.
Proof.
  induction l as [| x l IH]; cbn; intros H; [reflexivity |].
  rewrite (H x) by now left. rewrite IH; [reflexivity |].
  intros y Hy. apply H. now right.
Qed.

Lemma flat_map_nth_seq {A B} (h : A -> list B) (l : list A) (d : A) :
  flat_map (fun r => h (nth r l d)) (seq 0 (length l)) = flat_map h l.
Proof.
  induction l as [| x l IH]; cbn; [reflexivity |].
  rewrite <- seq_shift, flat_map_map. cbn. now rewrite IH.
Qed.

Lemma map_nth_seq_0 {A B} (h : A -> B) (l : list A) (d : A) :
  map (fun r => h (nth r l d)) (seq 0 (length l)) = map h l.
Proof.
  induction l as [| x l IH]; cbn; [reflexivity |].
  rewrite <- seq_shift, map_map. cbn. now rewrite IH.
Qed.

Lemma flat_map_combine_seq {A B C} (g : A -> B -> list C)
    (l1 : list A) (l2 : list B) (d1 : A) (d2 : B) :
  length l2 = length l1 ->
  flat_map (fun j => g (nth j l1 d1) (nth j l2 d2)) (seq 0 (length l1)) =
  flat_map (fun '(a, b) => g a b) (combine l1 l2).
Proof.
  revert l2. induction l1 as [| a l1 IH]; intros [| b l2] Hlen;
    try discriminate Hlen; cbn; [reflexivity |].
  rewrite <- seq_shift, flat_map_map. cbn. rewrite IH; [reflexivity |].
  now injection Hlen.
Qed.

Lemma shape_eqb_refl (sh : list nat) : shape_eqb sh sh = true.
Proof. unfold shape_eqb. destruct (list_eq_dec Nat.eq_dec sh sh); congruence. Qed.

Lemma mapM_ret {A B} (f : A -> M B) (g : A -> B) (l : list A) :
  (forall x, In x l -> f x = ret (g x)) -> mapM f l = ret (map g l).
Proof.
  induction l as [| x l IH]; cbn; intros H; [reflexivity |].
  rewrite (H x) by now left. rewrite bind_ret_l, IH, bind_ret_l; [reflexivity |].
  intros y Hy. apply H. now right.
Qed.

Lemma enumerate_map_seq {A} (g : nat -> A) (k : nat) :
  enumerate (map g (seq 0 k)) = map (fun j => (j, g j)) (seq 0 k).
Proof.
  unfold enumerate. rewrite length_map, length_seq.
  generalize 0%nat. induction k as [| k IH]; intros s; cbn; [reflexivity |].
  now rewrite IH.
Qed.

Lemma long_int_tensor (sh : list nat) (dt : dtype) (dev : device) (vals : list Z) :
  long (mk_Tensor sh dt dev (map inject_Z vals)) =
  mk_Tensor sh int64 dev (map inject_Z vals).
Proof.
  unfold long. cbn. f_equal. rewrite map_map. apply map_ext.
  intros z. now rewrite Qtrunc_inject_Z.
Qed.

Lemma py_sum_to_nat (nvec : list Z) :
  Forall (fun c => 0 < c) nvec ->
  0 <= py_sum nvec /\
  fold_right Nat.add O (map Z.to_nat nvec) = Z.to_nat (py_sum nvec).
Proof.
  induction 1 as [| c nvec Hc Hnvec [IHpos IH]]; cbn; [split; [lia | reflexivity] |].
  fold (py_sum nvec). split; [lia |]. rewrite IH. lia.
Qed.

(** ** The steps of [_multi_discrete_to_one_hot] *)

Lemma split_batch (rows : list (list Z)) (k : nat) (dev : device) :
  (1 <= k)%nat ->
  Forall (fun row => length row = k) rows ->
  split_1_dim1 (mk_Tensor [length rows; k] int64 dev
                          (map inject_Z (concat rows))) =
  ret (map (fun j => mk_Tensor [length rows; 1%nat] int64 dev
                               (map inject_Z (column j rows)))
           (seq 0 k)).
Proof.
  intros Hk Hrows. unfold split_1_dim1.
  cbn [t_shape t_dtype t_device t_data np_prod fold_right].
  rewrite Nat.mul_1_r, Nat.max_l by exact Hk.
  f_equal. apply map_ext_in. intros j Hj.
  apply in_seq in Hj. cbn in Hj.
  rewrite Nat.min_l by lia. f_equal.
  rewrite concat_map, <- (length_map (map inject_Z) rows), rows_of_concat.
  - rewrite flat_map_map. unfold column. rewrite map_map, <- flat_map_singleton.
    apply flat_map_ext_in. intros row Hrow.
    rewrite Nat.mul_1_r, (firstn_1_skipn j _ 0%Q).
    + now rewrite (nth_map_lt inject_Z row j 0%Q 0)
        by (rewrite Forall_forall in Hrows; rewrite (Hrows row Hrow); lia).
    + rewrite length_map. rewrite Forall_forall in Hrows.
      rewrite (Hrows row Hrow). lia.
  - apply Forall_forall. intros qrow Hin.
    apply in_map_iff in Hin as (row & <- & Hrow).
    rewrite length_map. rewrite Forall_forall in Hrows. now apply Hrows.
Qed.

Lemma batch_in_space_length (nvec : list Z) (rows : list (list Z)) :
  batch_in_space nvec rows ->
  Forall (fun row => length row = length nvec) rows.
Proof.
  unfold batch_in_space. apply Forall_impl. intros row H.
  induction H; cbn; [reflexivity | now f_equal].
Qed.

Lemma Forall2_nth_in_range (row nvec : list Z) (j : nat) :
  Forall2 (fun v c => 0 <= v < c) row nvec ->
  (j < length nvec)%nat ->
  0 <= nth j row 0 < nth j nvec 0.
Proof.
  intros H. revert j. induction H as [| v c row nvec Hvc H IH]; cbn; intros j Hj;
    [lia |].
  destruct j as [| j]; [exact Hvc | apply IH; lia].
Qed.

Lemma column_in_range (nvec : list Z) (rows : list (list Z)) (j : nat) :
  batch_in_space nvec rows ->
  (j < length nvec)%nat ->
  Forall (fun v => 0 <= v < nth j nvec 0) (column j rows).
Proof.
  intros Hrows Hj. unfold column. apply Forall_forall. intros v Hin.
  apply in_map_iff in Hin as (row & <- & Hrow).
  unfold batch_in_space in Hrows. rewrite Forall_forall in Hrows.
  now apply Forall2_nth_in_range; [apply Hrows |].
Qed.

Lemma count_positive (nvec : list Z) (j : nat) :
  Forall (fun c => 0 < c) nvec -> (j < length nvec)%nat -> 1 <= nth j nvec 0.
Proof.
  intros H Hj. rewrite Forall_forall in H.
  assert (0 < nth j nvec 0) by (apply H, nth_In, Hj). lia.
Qed.

Lemma getitem_nth {A} (l : list A) (j : nat) (d : A) :
  (j < length l)%nat -> getitem l j = ret (nth j l d).
Proof.
  intros Hj. unfold getitem.
  now rewrite (nth_error_nth' l d Hj).
Qed.

(** Each chunk is one-hot encoded by the count of its own index. *)
Lemma encode_chunks (nvec : list Z) (rows : list (list Z)) (dev : device) :
  Forall (fun c => 0 < c) nvec ->
  batch_in_space nvec rows ->
  mapM (fun '(idx, obs_) =>
          n <- getitem nvec idx ;;
          oh <- one_hot (long obs_) n ;;
          ret (float oh))
       (enumerate
          (map (fun j => mk_Tensor [length rows; 1%nat] int64 dev
                                   (map inject_Z (column j rows)))
               (seq 0 (length nvec)))) =
  ret (map (fun j =>
              mk_Tensor [length rows; 1%nat; Z.to_nat (nth j nvec 0)] float32 dev
                        (flat_map (one_hot_row (Z.to_nat (nth j nvec 0)))
                                  (column j rows)))
           (seq 0 (length nvec))).
Proof.
  intros Hpos Hrows.
  rewrite enumerate_map_seq.
  rewrite <- (map_map (fun j => (j, mk_Tensor [length rows; 1%nat] int64 dev
                                              (map inject_Z (column j rows))))
                      (fun '(j, _) =>
                         mk_Tensor [length rows; 1%nat; Z.to_nat (nth j nvec 0)]
                                   float32 dev
                                   (flat_map (one_hot_row (Z.to_nat (nth j nvec 0)))
                                             (column j rows)))).
  apply mapM_ret. intros [j t] Hin.
  apply in_map_iff in Hin as (j' & Heq & Hj). inversion Heq; subst j' t.
  apply in_seq in Hj. cbn in Hj.
  rewrite (getitem_nth nvec j 0) by lia. rewrite bind_ret_l.
  rewrite long_int_tensor.
  rewrite (one_hot_in_range _ (column j rows) (nth j nvec 0));
    try reflexivity.
  - apply count_positive; [assumption | lia].
  - apply column_in_range; [assumption | lia].
Qed.

Lemma cat_last_same_lead (lead : list nat) (dt : dtype) (dev : device)
    (ts : list Tensor) :
  ts <> [] ->
  (forall t, In t ts ->
     (exists w, t_shape t = lead ++ [w]) /\ t_dtype t = dt /\ t_device t = dev) ->
  cat_last ts =
  ret (mk_Tensor
         (lead ++ [fold_right Nat.add O (map (fun t => last (t_shape t) O) ts)])
         dt dev
         (flat_map
            (fun r => flat_map
                        (fun t => nth r (rows_of (np_prod lead)
                                                 (last (t_shape t) O) (t_data t)) [])
                        ts)
            (seq 0 (np_prod lead)))).
Proof.
  intros Hne Hshape. unfold cat_last.
  destruct ts as [| t0 ts']; [contradiction |].
  destruct (Hshape t0 (or_introl eq_refl)) as ([w0 Hw0] & -> & ->).
  rewrite Hw0, removelast_last.
  assert (forallb (fun t => match t_shape t with
                            | [] => false
                            | _ :: _ => shape_eqb (removelast (t_shape t)) lead
                            end) (t0 :: ts') = true) as ->; [| reflexivity].
  apply forallb_forall. intros t Hin.
  destruct (Hshape t Hin) as ([w Hw] & _). rewrite Hw, removelast_last, shape_eqb_refl.
  destruct (lead ++ [w]) eqn:E; [| reflexivity].
  now apply app_eq_nil in E as [_ E].
Qed.

Lemma length_column (j : nat) (rows : list (list Z)) :
  length (column j rows) = length rows.
Proof. unfold column. apply length_map. Qed.

(** Concatenating the encoded chunks along the last axis puts, in each row
    of the batch, the encodings of its sub-features one after the other. *)
Lemma cat_encoded_chunks (nvec : list Z) (rows : list (list Z)) (dev : device) :
  nvec <> [] ->
  batch_in_space nvec rows ->
  cat_last
    (map (fun j =>
            mk_Tensor [length rows; 1%nat; Z.to_nat (nth j nvec 0)] float32 dev
                      (flat_map (one_hot_row (Z.to_nat (nth j nvec 0)))
                                (column j rows)))
         (seq 0 (length nvec))) =
  ret (mk_Tensor
         [length rows; 1%nat; fold_right Nat.add O (map Z.to_nat nvec)]
         float32 dev
         (flat_map (encode_row nvec) rows)).
Proof.
  intros Hne Hrows.
  assert (length nvec <> O) as Hlen by (destruct nvec; [contradiction | discriminate]).
  rewrite (cat_last_same_lead [length rows; 1%nat] float32 dev).
  - cbn [app]. rewrite map_map. cbn [t_shape last].
    rewrite (map_nth_seq_0 Z.to_nat nvec 0). f_equal. f_equal.
    + cbn [np_prod fold_right]. rewrite !Nat.mul_1_r.
      rewrite <- (flat_map_nth_seq (encode_row nvec) rows []).
      apply flat_map_ext_in. intros r Hr. apply in_seq in Hr. cbn in Hr.
      rewrite flat_map_map. cbn [t_shape t_data last].
      unfold encode_row.
      rewrite <- (flat_map_combine_seq
                    (fun c v => one_hot_row (Z.to_nat c) v) nvec (nth r rows []) 0 0).
      * apply flat_map_ext_in. intros j Hj.
        rewrite <- (length_column j rows) at 1.
        rewrite rows_of_flat_map by (intros; apply length_one_hot_row).
        rewrite (nth_map_lt _ _ _ _ 0) by (rewrite length_column; lia).
        unfold column. now rewrite (nth_map_lt _ _ _ _ []) by lia.
      * pose proof (batch_in_space_length nvec rows Hrows) as Hl.
        rewrite Forall_forall in Hl. apply Hl, nth_In. lia.
  - destruct (length nvec); [contradiction | discriminate].
  - intros t Hin. apply in_map_iff in Hin as (j & <- & _).
    repeat split. eexists; reflexivity.
Qed.

(** The closure [_multi_discrete_to_one_hot] on a batch of the space. *)
Lemma multi_discrete_to_one_hot_batch (nvec : list Z) (rows : list (list Z))
    (dt : dtype) :
  nvec <> [] ->
  Forall (fun c => 0 < c) nvec ->
  batch_in_space nvec rows ->
  _multi_discrete_to_one_hot nvec (batch_array (length nvec) dt rows) =
  ret (mk_Tensor [length rows; Z.to_nat (py_sum nvec)] float32 cpu
                 (flat_map (encode_row nvec) rows)).
Proof.
  intros Hne Hpos Hrows.
  unfold _multi_discrete_to_one_hot, batch_array, int_array, as_tensor.
  cbn [nd_shape nd_dtype nd_data].
  rewrite long_int_tensor.
  rewrite split_batch.
  - rewrite bind_ret_l, (encode_chunks nvec rows cpu Hpos Hrows), bind_ret_l.
    rewrite (cat_encoded_chunks nvec rows cpu Hne Hrows), bind_ret_l.
    cbn [t_shape]. unfold getitem. cbn [nth_error]. rewrite bind_ret_l.
    destruct (py_sum_to_nat nvec Hpos) as [Hsum Hnat].
    unfold view2. cbn [t_shape t_dtype t_device t_data np_prod fold_right].
    assert ((py_sum nvec <? -1) = false) as -> by (apply Z.ltb_ge; lia).
    assert ((py_sum nvec =? -1) = false) as -> by (apply Z.eqb_neq; lia).
    rewrite Hnat, !Nat.mul_1_r, Nat.mul_1_l, Nat.eqb_refl. reflexivity.
  - destruct nvec; [contradiction | cbn; lia].
  - now apply batch_in_space_length.
Qed.


(** ** [get_preprocess_obs_fn] on MultiDiscrete spaces *)




(** ** [get_flattened_obs_dim] and the one-hot width *)

Lemma bind_Ok_inv {A B} (m : M A) (k : A -> M B) (ws : list warning) (b : B) :
  bind m k = (ws, Ok b) ->
  exists ws1 a ws2, m = (ws1, Ok a) /\ k a = (ws2, Ok b).
Proof.
  destruct m as [ws1 [a | e]]; cbn; [| discriminate].
  destruct (k a) as [ws2 r] eqn:Hk. intros H. inversion H; subst.
  exists ws1, a, ws2. split; [reflexivity | exact Hk].
Qed.

Ltac bind_inv H :=
  apply bind_Ok_inv in H as (? & ? & ? & _ & H).

Lemma view2_shape (t t' : Tensor) (d0 : nat) (d1 : Z) (ws : list warning) :
  0 <= d1 ->
  view2 t d0 d1 = (ws, Ok t') ->
  t_shape t' = [d0; Z.to_nat d1].
Proof.
  intros Hd1. unfold view2.
  assert ((d1 <? -1) = false) as -> by (apply Z.ltb_ge; lia).
  assert ((d1 =? -1) = false) as -> by (apply Z.eqb_neq; lia).
  destruct (_ =? _)%nat; [| discriminate].
  intros H. inversion H. reflexivity.
Qed.

Lemma np_sum_from_exact (acc : Z) (nvec : list Z) :
  0 <= acc ->
  Forall (fun c => 0 < c) nvec ->
  acc + py_sum nvec < 2 ^ 63 ->
  np_sum_from acc nvec = ret (acc + py_sum nvec).
Proof.
  intros Hacc Hpos. revert acc Hacc.
  induction Hpos as [| c nvec Hc Hpos IH]; cbn [np_sum_from py_sum fold_right];
    intros acc Hacc Hlt.
  - now rewrite Z.add_0_r.
  - fold (py_sum nvec) in *.
    destruct (py_sum_to_nat nvec Hpos) as [Hsum _].
    unfold int64_add.
    assert ((- 2 ^ 63 <=? acc + c) && (acc + c <? 2 ^ 63) = true) as ->.
    { apply andb_true_intro. split; [apply Z.leb_le | apply Z.ltb_lt]; lia. }
    rewrite bind_ret_l, IH by lia. now rewrite Z.add_assoc.
Qed.

(** C10 does not hold at MultiDiscrete([2^62, 2^62]): the int64 sum wraps,
    and [get_flattened_obs_dim] returns -2^63, with a warning, where the sum
    of the counts is 2^63. *)
Lemma flattened_dim_wraps :
  get_flattened_obs_dim (fun _ => raise ValueError)
                        (MultiDiscrete [2 ^ 62; 2 ^ 62])
  = ([RuntimeWarning_overflow_in_scalar_add], Ok (- 2 ^ 63)) /\
  py_sum [2 ^ 62; 2 ^ 62] = 2 ^ 63 /\
  get_flattened_obs_dim (fun _ => raise ValueError)
                        (MultiDiscrete [2 ^ 62; 2 ^ 62])
  <> ret (py_sum [2 ^ 62; 2 ^ 62]).
Proof.
  assert (get_flattened_obs_dim (fun _ => raise ValueError)
                                (MultiDiscrete [2 ^ 62; 2 ^ 62])
          = ([RuntimeWarning_overflow_in_scalar_add], Ok (- 2 ^ 63))) as H
    by (vm_compute; reflexivity).
  split; [exact H |]. split; [reflexivity |]. rewrite H. discriminate.
Qed.

(** C10, amended. For a MultiDiscrete(counts) space with at least one count
    (the counts being positive) and sum(counts) below 2^63,
    [get_flattened_obs_dim] returns sum(counts), and on every batch of the
    space the function returned by [get_preprocess_obs_fn] returns a tensor
    with one row per row of the batch, whose feature width is that same
    number. *)
Theorem flattened_dim_is_one_hot_width (flatdim : Space -> M Z) (nvec : list Z)
    (rows : list (list Z)) (dt : dtype) :
  nvec <> [] ->
  Forall (fun c => 0 < c) nvec ->
  py_sum nvec < 2 ^ 63 ->
  batch_in_space nvec rows ->
  get_flattened_obs_dim flatdim (MultiDiscrete nvec) = ret (py_sum nvec) /\
  exists f t width,
    get_preprocess_obs_fn (MultiDiscrete nvec) = ret f /\
    f (batch_array (length nvec) dt rows) = ret t /\
    t_shape t = [length rows; width] /\
    get_flattened_obs_dim flatdim (MultiDiscrete nvec) = ret (Z.of_nat width).
Proof.
  intros Hne Hpos Hlt Hrows.
  destruct (py_sum_to_nat nvec Hpos) as [Hsum _].
  assert (get_flattened_obs_dim flatdim (MultiDiscrete nvec)
          = ret (py_sum nvec)) as Hdim.
  { cbn [get_flattened_obs_dim]. unfold np_sum.
    now rewrite np_sum_from_exact by (assumption || lia). }
  split; [exact Hdim |].
  exists (_multi_discrete_to_one_hot nvec). do 2 eexists.
  split; [reflexivity |].
  split; [now apply multi_discrete_to_one_hot_batch |].
  split; [reflexivity |].
  rewrite Hdim, Z2Nat.id by exact Hsum. reflexivity.
Qed.

Lemma flattened_dim_is_one_hot_width_witness :
  get_flattened_obs_dim (fun _ => raise ValueError) (MultiDiscrete [3; 4; 5])
  = ret 12 /\
  exists f t width,
    get_preprocess_obs_fn (MultiDiscrete [3; 4; 5]) = ret f /\
    f (batch_array 3 int64 [[0; 1; 2]; [2; 3; 4]]) = ret t /\
    t_shape t = [2%nat; width] /\
    get_flattened_obs_dim (fun _ => raise ValueError) (MultiDiscrete [3; 4; 5])
    = ret (Z.of_nat width).
Proof.
  apply (flattened_dim_is_one_hot_width
           (fun _ => raise ValueError) [3; 4; 5] [[0; 1; 2]; [2; 3; 4]] int64).
  - discriminate.
  - repeat constructor.
  - reflexivity.
  - repeat constructor; lia.
Defined.

(** * Further properties *)

(** ** [process_observation_space]: when it returns and what it raises *)

Fixpoint process_observation_space_cases (s : Space) :
  (supported_observation_space s = true /\
   exists r, process_observation_space s = ret r) \/
  (supported_observation_space s = false /\
   exists s', ~ In (class_name s') observation_kinds /\
              process_observation_space s =
              raise (NotImplementedError (observation_space_is_not_supported s'))).
Proof.
  destruct s as [b | n | nvec | sh | spaces | spaces | m | f];
    try (left; split; [reflexivity | eexists; reflexivity]);
    try (right; split; [reflexivity |]; eexists; split; [| reflexivity];
         cbn; intros [H | [H | [H | [H | [H | []]]]]]; discriminate H).
  rewrite process_observation_space_Dict, supported_observation_space_Dict.
  assert ((supported_items spaces = true /\
           exists items, process_items spaces = ret items) \/
          (supported_items spaces = false /\
           exists s', ~ In (class_name s') observation_kinds /\
                      process_items spaces =
                      raise (NotImplementedError
                               (observation_space_is_not_supported s'))))
    as [[Hs [items Hitems]] | [Hs (s' & Hkind & Hraise)]].
  { induction spaces as [| [key sub] tl IH]; cbn.
    - left. split; [reflexivity | eexists; reflexivity].
    - destruct (process_observation_space_cases sub)
        as [[Hsub [v Hv]] | [Hsub (s' & Hkind & Hraise)]]; rewrite Hsub.
      + destruct IH as [[Htl [rest Hrest]] | [Htl (s' & Hkind & Hraise)]];
          rewrite Htl, Hv, bind_ret_l.
        * left. split; [reflexivity |]. rewrite Hrest, bind_ret_l.
          eexists; reflexivity.
        * right. split; [reflexivity |]. exists s'. split; [exact Hkind |].
          rewrite Hraise. reflexivity.
      + right. split; [reflexivity |]. exists s'. split; [exact Hkind |].
        rewrite Hraise. reflexivity. }
  - left. split; [exact Hs |]. rewrite Hitems, bind_ret_l. eexists; reflexivity.
  - right. split; [exact Hs |]. exists s'. split; [exact Hkind |].
    rewrite Hraise. reflexivity.
Qed.

(** X1. [process_observation_space] returns a value, without a warning,
    exactly on the supported spaces (a Box, Discrete, MultiDiscrete or
    MultiBinary space, or a dictionary of supported spaces, at any depth). On
    every other space it raises the unsupported-observation-space error, and
    the space the error names is of an unsupported kind. *)
Theorem process_observation_space_returns_iff (s : Space) :
  ((exists ws r, process_observation_space s = (ws, Ok r)) <->
   supported_observation_space s = true) /\
  (supported_observation_space s = true ->
   exists r, process_observation_space s = ret r) /\
  (supported_observation_space s = false ->
   exists s', ~ In (class_name s') observation_kinds /\
              process_observation_space s =
              raise (NotImplementedError (observation_space_is_not_supported s'))).
Proof.
  destruct (process_observation_space_cases s)
    as [[Hs [r Hr]] | [Hs (s' & Hkind & Hraise)]].
  - split; [| split].
    + split; [intros _; exact Hs | intros _; exists [], r; exact Hr].
    + intros _. exists r. exact Hr.
    + rewrite Hs. discriminate.
  - split; [| split].
    + split; [| rewrite Hs; discriminate].
      intros (ws & r & Hr). rewrite Hraise in Hr. discriminate Hr.
    + rewrite Hs. discriminate.
    + intros _. exists s'. split; assumption.
Qed.

Lemma process_observation_space_returns_iff_witness :
  exists s', ~ In (class_name s') observation_kinds /\
             process_observation_space
               (Dict [("image"%string, Box_of 0 255 [2; 2; 3]%nat uint8);
                      ("mission"%string, Text 16)]) =
             raise (NotImplementedError (observation_space_is_not_supported s')).
Proof.
  apply (proj2 (proj2 (process_observation_space_returns_iff
                         (Dict [("image"%string, Box_of 0 255 [2; 2; 3]%nat uint8);
                                ("mission"%string, Text 16)])))).
  reflexivity.
Defined.

(** X2. In a dictionary space the items are processed in order: when the
    items before one are supported and processing that one raises, the
    dictionary raises the same exception, whatever the later items are. *)
Theorem process_observation_space_Dict_first_error
    (pre post : list (string * Space)) (key : string) (sub : Space) (e : exn) :
  supported_items pre = true ->
  process_observation_space sub = raise e ->
  process_observation_space (Dict (pre ++ (key, sub) :: post)) = raise e.
Proof.
  intros Hpre Hsub. rewrite process_observation_space_Dict.
  assert (process_items (pre ++ (key, sub) :: post) = raise e) as ->;
    [| reflexivity].
  induction pre as [| [k s] pre IH]; cbn.
  - rewrite Hsub. reflexivity.
  - cbn in Hpre. apply andb_prop in Hpre as [Hs Hpre].
    destruct (process_observation_space_total s Hs) as [v Hv].
    rewrite Hv, bind_ret_l, (IH Hpre). reflexivity.
Qed.

Lemma process_observation_space_Dict_first_error_witness :
  process_observation_space
    (Dict ([("direction"%string, Discrete 4)] ++
           ("mission"%string, Text 16) :: [("other"%string, Tuple [])])) =
  raise (NotImplementedError (observation_space_is_not_supported (Text 16))).
Proof.
  apply process_observation_space_Dict_first_error; reflexivity.
Defined.

(** ** [process_action_space]: what a returned tuple holds, and the errors *)

(** X3. Whenever [process_action_space] returns a tuple, it has emitted no
    warning, the first component is the [shape] attribute of the space, and
    the type tag is the class name of the space, one of "Box", "Discrete",
    "MultiDiscrete" and "MultiBinary". *)
Theorem process_action_space_tag_and_shape (s : Space) (ws : list warning)
    (sh : option (list nat)) (dim : Z) (tag : string) (rng : pynum * pynum) :
  process_action_space s = (ws, Ok (sh, dim, tag, rng)) ->
  ws = [] /\ sh = shape s /\ tag = class_name s /\ In tag action_kinds.
Proof.
  destruct s as [b | n | nvec | shp | spaces | spaces | m | f];
    try discriminate.
  - unfold process_action_space, np_getitem0, low, high, py_float.
    cbn [nd_shape nd_dtype nd_data].
    destruct (box_shape b) as [| [| d0] rest] eqn:Hshape;
      try discriminate.
    rewrite !bind_ret_l. cbn [nd_data].
    destruct (firstn (np_prod rest) (box_low b)) as [| l [| l' ls]];
      try discriminate.
    rewrite !bind_ret_l. cbn [nd_data].
    destruct (firstn (np_prod rest) (box_high b)) as [| h [| h' hs]];
      try discriminate.
    rewrite !bind_ret_l. intros H. inversion H; subst.
    cbn. rewrite Hshape. tauto.
  - cbn. intros H. inversion H; subst. cbn. tauto.
  - destruct nvec as [| c0 cs]; [discriminate |].
    cbn. intros H. inversion H; subst. cbn. tauto.
  - destruct shp as [| d0 rest]; [discriminate |].
    cbn. intros H. inversion H; subst. cbn. tauto.
Qed.

Lemma process_action_space_tag_and_shape_witness :
  [] = @nil warning /\
  Some [3%nat] = shape (MultiDiscrete [3; 4; 5]) /\
  "MultiDiscrete"%string = class_name (MultiDiscrete [3; 4; 5]) /\
  In "MultiDiscrete"%string action_kinds.
Proof.
  apply (process_action_space_tag_and_shape
           (MultiDiscrete [3; 4; 5]) [] (Some [3%nat]) 3 "MultiDiscrete"%string
           (PyInt 0, PyInt 2)).
  reflexivity.
Defined.

Lemma process_action_space_raises_witness :
  process_action_space (Box_of 0 1 [2; 3]%nat float32) = raise TypeError /\
  process_action_space (Box_of 0 1 [0; 3]%nat float32) = raise IndexError /\
  process_action_space (Box_of 0 1 [] float32) = raise IndexError.
Proof.
  split; [| split].
  - apply (proj1 (proj2 (proj2 process_action_space_raises))
             (mk_Box [2; 3]%nat (repeat 0%Q 6) (repeat 1%Q 6) float32)
             1%nat [3%nat]).
    + reflexivity.
    + reflexivity.
    + cbn. lia.
  - apply (proj1 (proj2 process_action_space_raises)
             (mk_Box [0; 3]%nat [] [] float32) [3%nat]).
    reflexivity.
  - apply (proj1 process_action_space_raises (mk_Box [] [0%Q] [1%Q] float32)).
    reflexivity.
Defined.

(** ** [process_env_info] *)

(** X5. [process_env_info] processes the observation space first. On an
    unsupported observation space it raises the unsupported-observation-space
    error, naming a space of an unsupported kind, whatever the action space
    is. On a supported observation space it raises exactly what
    [process_action_space] raises on the action space, and otherwise returns
    the processed observation shape followed by the four components of the
    action tuple. *)
Theorem process_env_info_spec (observation_space action_space : Space) :
  (supported_observation_space observation_space = false ->
   exists s',
     ~ In (class_name s') observation_kinds /\
     process_env_info observation_space action_space =
     raise (NotImplementedError (observation_space_is_not_supported s'))) /\
  (supported_observation_space observation_space = true ->
   exists obs_shape,
     process_observation_space observation_space = ret obs_shape /\
     (forall e,
        process_action_space action_space = raise e ->
        process_env_info observation_space action_space = raise e) /\
     (forall sh dim tag rng,
        process_action_space action_space = ret (sh, dim, tag, rng) ->
        process_env_info observation_space action_space =
        ret (obs_shape, sh, dim, tag, rng))).
Proof.
  unfold process_env_info.
  destruct (process_observation_space_cases observation_space)
    as [[Hs [r Hr]] | [Hs (s' & Hkind & Hraise)]]; rewrite Hs.
  - split; [discriminate |]. intros _. exists r. split; [exact Hr |].
    rewrite Hr, bind_ret_l. split.
    + intros e ->. reflexivity.
    + intros sh dim tag rng ->. reflexivity.
  - split; [| discriminate]. intros _. exists s'. split; [exact Hkind |].
    rewrite Hraise. reflexivity.
Qed.

Lemma process_env_info_spec_witness :
  (exists s',
     ~ In (class_name s') observation_kinds /\
     process_env_info (Dict [("mission"%string, Text 16)]) (Discrete 7) =
     raise (NotImplementedError (observation_space_is_not_supported s'))) /\
  exists obs_shape,
    process_observation_space (Box_of 0 255 [2; 2; 3]%nat uint8) = ret obs_shape /\
    process_env_info (Box_of 0 255 [2; 2; 3]%nat uint8) (Discrete 7) =
    ret (obs_shape, Some [], 7, "Discrete"%string, (PyInt 0, PyInt 6)).
Proof.
  split.
  - apply (proj1 (process_env_info_spec
                    (Dict [("mission"%string, Text 16)]) (Discrete 7))).
    reflexivity.
  - destruct (proj2 (process_env_info_spec
                       (Box_of 0 255 [2; 2; 3]%nat uint8) (Discrete 7)) eq_refl)
      as (obs_shape & Hobs & _ & Hret).
    exists obs_shape. split; [exact Hobs |]. apply Hret. reflexivity.
Defined.

(** ** The image-space classifier: any number of axes, and the converse *)

Lemma argmin_from_range (best_i best cur : nat) (l : list nat) :
  (best_i < cur)%nat ->
  argmin_from best_i best cur l = best_i \/
  (cur <= argmin_from best_i best cur l)%nat.
Proof.
  revert best_i best cur.
  induction l as [| x l IH]; cbn [argmin_from]; intros bi b cur Hlt;
    [now left |].
  destruct (x <? b)%nat.
  - right. assert (cur < S cur)%nat as Hc by lia.
    destruct (IH cur x (S cur) Hc) as [H | H]; lia.
  - assert (bi < S cur)%nat as Hc by lia.
    destruct (IH bi b (S cur) Hc) as [H | H]; [now left | right; lia].
Qed.

Lemma argmin_from_keeps (best_i best cur : nat) (l : list nat) :
  (best_i < cur)%nat ->
  argmin_from best_i best cur l = best_i <-> Forall (fun x => (best <= x)%nat) l.
Proof.
  revert best_i best cur.
  induction l as [| x l IH]; cbn [argmin_from]; intros bi b cur Hlt.
  - split; [constructor | reflexivity].
  - destruct (ltb_spec_dec x b) as [[E H] | [E H]]; rewrite E.
    + split.
      * intros Heq. assert (cur < S cur)%nat as Hc by lia.
        destruct (argmin_from_range cur x (S cur) l Hc) as [H' | H']; lia.
      * intros Hall. inversion Hall; subst. lia.
    + rewrite (IH bi b (S cur)) by lia. split.
      * intros Hall. constructor; assumption.
      * intros Hall. inversion Hall; assumption.
Qed.

(** X6. [is_image_space_channels_first] raises ValueError on a space without
    axes. On a space whose first axis has extent d0 it returns true exactly
    when no axis has a smaller extent than d0, for any number of axes; and
    whenever it emits the warning it returns false. *)
Theorem is_image_space_channels_first_any_rank (b : BoxSpace) :
  (box_shape b = [] -> is_image_space_channels_first b = raise ValueError) /\
  (forall d0 rest,
     box_shape b = d0 :: rest ->
     exists ws r,
       is_image_space_channels_first b = (ws, Ok r) /\
       (r = true <-> Forall (fun d => (d0 <= d)%nat) rest) /\
       (ws <> [] -> r = false)).
Proof.
  unfold is_image_space_channels_first. split.
  - intros ->. reflexivity.
  - intros d0 rest ->. cbn [np_argmin]. rewrite bind_ret_l.
    pose proof (argmin_from_keeps 0 d0 1 rest (Nat.lt_0_1)) as Hkeep.
    destruct (argmin_from 0 d0 1 rest) as [| [| k]] eqn:Harg; cbn.
    + do 2 eexists. split; [reflexivity |]. split.
      * split; [intros _; now apply Hkeep | reflexivity].
      * intros H. now contradiction H.
    + do 2 eexists. split; [reflexivity |]. split; [| reflexivity].
      split; [discriminate |]. intros Hall. apply Hkeep in Hall. discriminate.
    + do 2 eexists. split; [reflexivity |]. split; [| reflexivity].
      split; [discriminate |]. intros Hall. apply Hkeep in Hall. discriminate.
Qed.

Lemma is_image_space_channels_first_any_rank_witness :
  exists ws r,
    is_image_space_channels_first (mk_Box [4; 84; 84; 7]%nat [] [] uint8)
    = (ws, Ok r) /\
    (r = true <-> Forall (fun d => (4 <= d)%nat) [84; 84; 7]%nat) /\
    (ws <> [] -> r = false).
Proof.
  apply (proj2 (is_image_space_channels_first_any_rank
                  (mk_Box [4; 84; 84; 7]%nat [] [] uint8)) 4%nat [84; 84; 7]%nat).
  reflexivity.
Defined.

Lemma np_any_ne_Forall (a : list Q) (c : Q) :
  Forall (fun x => x == c)%Q a -> np_any_ne a c = false.
Proof.
  unfold np_any_ne. induction 1 as [| x tl Hx Htl IH]; cbn; [reflexivity |].
  apply Qeq_bool_iff in Hx. rewrite Hx, IH. reflexivity.
Qed.

Lemma channels_first_three_axes (b : BoxSpace) (d0 d1 d2 : nat) :
  box_shape b = [d0; d1; d2] ->
  exists ws,
    is_image_space_channels_first b
    = (ws, Ok ((d0 <=? d1)%nat && (d0 <=? d2)%nat)).
Proof.
  intros Hshape. unfold is_image_space_channels_first. rewrite Hshape.
  cbn [np_argmin argmin_from].
  destruct (ltb_spec_dec d1 d0) as [[E1 H1] | [E1 H1]]; rewrite E1.
  - assert ((d0 <=? d1)%nat = false) as -> by (apply Nat.leb_gt; exact H1).
    destruct (d2 <? d1)%nat; cbn; eexists; reflexivity.
  - assert ((d0 <=? d1)%nat = true) as -> by (apply Nat.leb_le; exact H1).
    destruct (ltb_spec_dec d2 d0) as [[E2 H2] | [E2 H2]]; rewrite E2.
    + assert ((d0 <=? d2)%nat = false) as -> by (apply Nat.leb_gt; exact H2).
      cbn. eexists; reflexivity.
    + assert ((d0 <=? d2)%nat = true) as -> by (apply Nat.leb_le; exact H2).
      cbn. eexists; reflexivity.
Qed.

(** X7. [is_image_space] never raises, and emits no warning unless
    [check_channels] is set. It returns true on every Box space with three
    axes that passes the checks asked for: dtype uint8 and bounds 0 and 255
    everywhere unless [normalized_image] is set, and, when [check_channels]
    is set, a channel count of 1, 3 or 4, read from axis 0 when no axis is
    smaller than axis 0 and from the last axis otherwise. *)
Theorem is_image_space_total_and_complete :
  (forall s check_channels normalized_image,
     exists ws r,
       is_image_space s check_channels normalized_image = (ws, Ok r) /\
       (check_channels = false -> ws = [])) /\
  (forall b d0 d1 d2 check_channels normalized_image,
     box_shape b = [d0; d1; d2] ->
     (normalized_image = false ->
      box_dtype b = uint8 /\
      Forall (fun x => x == 0)%Q (box_low b) /\
      Forall (fun x => x == 255)%Q (box_high b)) ->
     (check_channels = true ->
      In (if (d0 <=? d1)%nat && (d0 <=? d2)%nat then d0 else d2) [1; 3; 4]%nat) ->
     exists ws, is_image_space (Box b) check_channels normalized_image
                = (ws, Ok true)).
Proof.
  split.
  - intros s cc ni.
    destruct s as [b | | | | | | |];
      try (exists [], false; split; reflexivity).
    unfold is_image_space.
    destruct (length (box_shape b) =? 3)%nat eqn:Hlen;
      [| exists [], false; split; reflexivity].
    destruct (negb ni && negb (dtype_eqb (box_dtype b) uint8));
      [exists [], false; split; reflexivity |].
    destruct (negb ni && (np_any_ne (box_low b) 0 || np_any_ne (box_high b) 255));
      [exists [], false; split; reflexivity |].
    destruct cc; cbn [negb]; [| exists [], true; split; reflexivity].
    destruct (box_shape b) as [| d0 [| d1 [| d2 [| d3 rest]]]] eqn:Hshape;
      try discriminate Hlen.
    destruct (channels_first_three_axes b d0 d1 d2 Hshape) as (ws & Hcf).
    rewrite Hcf. destruct ((d0 <=? d1)%nat && (d0 <=? d2)%nat); cbn;
      do 2 eexists; split; try reflexivity; discriminate.
  - intros b d0 d1 d2 cc ni Hshape Hni Hcc.
    unfold is_image_space. rewrite Hshape. cbn [length Nat.eqb].
    assert (negb ni && negb (dtype_eqb (box_dtype b) uint8) = false) as ->.
    { destruct ni; [reflexivity |]. destruct (Hni eq_refl) as (-> & _).
      reflexivity. }
    assert (negb ni && (np_any_ne (box_low b) 0 || np_any_ne (box_high b) 255)
            = false) as ->.
    { destruct ni; [reflexivity |]. destruct (Hni eq_refl) as (_ & Hlo & Hhi).
      now rewrite (np_any_ne_Forall _ _ Hlo), (np_any_ne_Forall _ _ Hhi). }
    destruct cc; cbn [negb]; [| exists []; reflexivity].
    specialize (Hcc eq_refl).
    destruct (channels_first_three_axes b d0 d1 d2 Hshape) as (ws & Hcf).
    rewrite Hcf.
    assert (in_1_3_4 (if (d0 <=? d1)%nat && (d0 <=? d2)%nat then d0 else d2)
            = true) as Hin.
    { unfold in_1_3_4. cbn in Hcc.
      destruct Hcc as [<- | [<- | [<- | []]]]; reflexivity. }
    destruct ((d0 <=? d1)%nat && (d0 <=? d2)%nat); cbn; rewrite Hin;
      eexists; reflexivity.
Qed.

Lemma is_image_space_total_and_complete_witness :
  exists ws,
    is_image_space (Box_of 0 255 [84; 84; 3]%nat uint8) true false = (ws, Ok true).
Proof.
  apply (proj2 is_image_space_total_and_complete
           (mk_Box [84; 84; 3]%nat (repeat 0%Q (np_prod [84; 84; 3]%nat))
                   (repeat 255%Q (np_prod [84; 84; 3]%nat)) uint8)
           84%nat 84%nat 3%nat true false).
  - reflexivity.
  - intros _. split; [reflexivity |].
    split; apply Forall_forall; intros x Hx; apply repeat_spec in Hx;
      subst x; reflexivity.
  - intros _. cbn. tauto.
Defined.

(** ** [get_preprocess_obs_fn] on Box and MultiBinary spaces *)

Lemma is_image_space_quiet (s : Space) (normalized_image : bool) :
  exists r, is_image_space s false normalized_image = ret r.
Proof.
  destruct s as [b | | | | | | |]; try (exists false; reflexivity).
  unfold is_image_space.
  destruct (length (box_shape b) =? 3)%nat; [| exists false; reflexivity].
  destruct (negb normalized_image && negb (dtype_eqb (box_dtype b) uint8));
    [exists false; reflexivity |].
  destruct (negb normalized_image &&
            (np_any_ne (box_low b) 0 || np_any_ne (box_high b) 255));
    [exists false; reflexivity | exists true; reflexivity].
Qed.

Lemma div_255_unit_interval (data : list Q) :
  Forall (fun x => 0 <= x /\ x <= 255)%Q data ->
  Forall (fun y => 0 <= y /\ y <= 1)%Q (map (fun x => x / 255)%Q data).
Proof.
  intros H. apply Forall_forall. intros y Hy.
  apply in_map_iff in Hy as (x & <- & Hx).
  rewrite Forall_forall in H. destruct (H x Hx) as [H0 H255]. split.
  - apply Qle_shift_div_l; [reflexivity |]. now rewrite Qmult_0_l.
  - apply Qle_shift_div_r; [reflexivity |]. now rewrite Qmult_1_l.
Qed.

(** X8. The functions [get_preprocess_obs_fn] selects for Box and
    MultiBinary spaces, on batches of the dtype of the space. For a Box that
    [is_image_space] accepts and a uint8 batch with elements between 0 and
    255, the function returns a float32 tensor of the shape of the batch
    whose elements all lie between 0 and 1. For a Box that [is_image_space]
    does not accept and a float32 batch, and for a MultiBinary space and an
    int8 batch, it returns the same numbers, in the same shape, as a float32
    tensor. *)
Theorem preprocess_Box_MultiBinary :
  (forall b obs,
     is_image_space (Box b) false false = ret true ->
     nd_dtype obs = uint8 ->
     Forall (fun x => 0 <= x /\ x <= 255)%Q (nd_data obs) ->
     exists f t,
       get_preprocess_obs_fn (Box b) = ret f /\
       f obs = ret t /\
       t_shape t = nd_shape obs /\
       t_dtype t = float32 /\
       length (t_data t) = length (nd_data obs) /\
       Forall (fun y => 0 <= y /\ y <= 1)%Q (t_data t)) /\
  (forall b obs,
     is_image_space (Box b) false false = ret false ->
     nd_dtype obs = float32 ->
     exists f,
       get_preprocess_obs_fn (Box b) = ret f /\
       f obs = ret (mk_Tensor (nd_shape obs) float32 cpu (nd_data obs))) /\
  (forall sh obs,
     nd_dtype obs = int8 ->
     exists f,
       get_preprocess_obs_fn (MultiBinary sh) = ret f /\
       f obs = ret (mk_Tensor (nd_shape obs) float32 cpu (nd_data obs))).
Proof.
  split; [| split].
  - intros b obs Himg Hdt Hdata. cbn [get_preprocess_obs_fn].
    rewrite Himg, bind_ret_l. do 2 eexists.
    split; [reflexivity |]. split; [reflexivity |].
    unfold div_255, as_tensor. cbn [t_shape t_dtype t_data].
    rewrite Hdt. cbn [is_floating]. repeat split.
    + apply length_map.
    + now apply div_255_unit_interval.
  - intros b obs Himg Hdt. cbn [get_preprocess_obs_fn].
    rewrite Himg, bind_ret_l. eexists. split; reflexivity.
  - intros sh obs Hdt. eexists. split; reflexivity.
Qed.

Lemma preprocess_Box_MultiBinary_witness :
  exists f t,
    get_preprocess_obs_fn (Box_of 0 255 [1; 1; 2]%nat uint8) = ret f /\
    f (mk_ndarray [1; 1; 1; 2]%nat uint8 [0; 255]%Q) = ret t /\
    t_shape t = [1; 1; 1; 2]%nat /\
    t_dtype t = float32 /\
    length (t_data t) = 2%nat /\
    Forall (fun y => 0 <= y /\ y <= 1)%Q (t_data t).
Proof.
  apply (proj1 preprocess_Box_MultiBinary
           (mk_Box [1; 1; 2]%nat [0; 0]%Q [255; 255]%Q uint8)
           (mk_ndarray [1; 1; 1; 2]%nat uint8 [0; 255]%Q)).
  - reflexivity.
  - reflexivity.
  - repeat constructor; cbn; discriminate.
Defined.

(** ** One-hot preprocessing: values outside the space, and injectivity *)

Lemma list_min_le (vs : list Z) (v : Z) :
  list_min v vs <= v /\ Forall (fun x => list_min v vs <= x) vs.
Proof.
  unfold list_min. revert v. induction vs as [| x vs IH]; cbn; intros v.
  - split; [lia | constructor].
  - destruct (IH (Z.min v x)) as [Hmin Hall]. split; [lia |].
    constructor; [lia | exact Hall].
Qed.

Lemma list_max_ge (vs : list Z) (v : Z) :
  v <= list_max v vs /\ Forall (fun x => x <= list_max v vs) vs.
Proof.
  unfold list_max. revert v. induction vs as [| x vs IH]; cbn; intros v.
  - split; [lia | constructor].
  - destruct (IH (Z.max v x)) as [Hmax Hall]. split; [lia |].
    constructor; [lia | exact Hall].
Qed.

Lemma one_hot_out_of_range (t : Tensor) (vals : list Z) (n : Z) :
  t_dtype t = int64 ->
  t_data t = map inject_Z vals ->
  1 <= n ->
  Exists (fun v => v < 0 \/ n <= v) vals ->
  one_hot t n = raise RuntimeError.
Proof.
  intros Hdt Hdata Hn Hex. unfold one_hot.
  rewrite Hdt, Hdata, map_Qtrunc_inject_Z. cbn [dtype_eqb negb].
  destruct vals as [| v vs]; [inversion Hex |].
  destruct (list_min_le vs v) as [Hmin Hmins].
  destruct (list_max_ge vs v) as [Hmax Hmaxs].
  destruct (Z.ltb_spec (list_min v vs) 0) as [Hneg | Hnonneg]; [reflexivity |].
  assert ((n =? -1) = false) as -> by (apply Z.eqb_neq; lia).
  assert ((list_max v vs <? n) = false) as ->; [| reflexivity].
  apply Z.ltb_ge. apply Exists_exists in Hex as (x & Hin & Hx).
  rewrite Forall_forall in Hmins, Hmaxs.
  destruct Hin as [<- | Hin].
  - lia.
  - specialize (Hmins x Hin). specialize (Hmaxs x Hin). lia.
Qed.

(** X9. For a Discrete(n) space, n >= 1, a raw batch that holds a value
    outside 0..n-1 makes the function returned by [get_preprocess_obs_fn]
    raise (the RuntimeError of [F.one_hot]); it never returns an encoding of
    such a batch. *)
Theorem preprocess_Discrete_out_of_range (n : Z) (sh : list nat) (dt : dtype)
    (vals : list Z) :
  1 <= n ->
  Exists (fun v => v < 0 \/ n <= v) vals ->
  exists f,
    get_preprocess_obs_fn (Discrete n) = ret f /\
    f (int_array sh dt vals) = raise RuntimeError.
Proof.
  intros Hn Hex. eexists. split; [reflexivity |]. cbn beta.
  apply (one_hot_out_of_range _ vals n); try assumption; try reflexivity.
  apply long_int_data. reflexivity.
Qed.

Lemma preprocess_Discrete_out_of_range_witness :
  exists f,
    get_preprocess_obs_fn (Discrete 5) = ret f /\
    f (int_array [3%nat] int64 [0; 5; 2]) = raise RuntimeError.
Proof.
  apply (preprocess_Discrete_out_of_range 5 [3%nat] int64 [0; 5; 2]).
  - lia.
  - apply Exists_cons_tl, Exists_cons_hd. lia.
Defined.

Lemma app_inv_length {A} (a b c d : list A) :
  length a = length c -> a ++ b = c ++ d -> a = c /\ b = d.
Proof.
  revert c. induction a as [| x a IH]; intros [| y c] Hlen H;
    try discriminate Hlen; cbn in *.
  - split; [reflexivity | exact H].
  - injection H as -> H. injection Hlen as Hlen.
    destruct (IH c Hlen H) as [-> ->]. split; reflexivity.
Qed.

Lemma one_hot_row_inj (w : nat) (v v' : Z) :
  0 <= v < Z.of_nat w ->
  one_hot_row w v = one_hot_row w v' -> v = v'.
Proof.
  intros Hv Heq.
  assert (nth (Z.to_nat v) (one_hot_row w v) 0%Q =
          nth (Z.to_nat v) (one_hot_row w v') 0%Q) as Hnth by now rewrite Heq.
  rewrite !nth_one_hot_row in Hnth by lia.
  assert ((Z.of_nat (Z.to_nat v) =? v) = true) as E by (apply Z.eqb_eq; lia).
  rewrite E in Hnth.
  destruct (Z.eqb_spec (Z.of_nat (Z.to_nat v)) v') as [Heq' | _];
    [lia | discriminate Hnth].
Qed.

Lemma flat_map_one_hot_inj (w : nat) (vals1 vals2 : list Z) :
  (1 <= w)%nat ->
  Forall (fun v => 0 <= v < Z.of_nat w) vals1 ->
  flat_map (one_hot_row w) vals1 = flat_map (one_hot_row w) vals2 ->
  vals1 = vals2.
Proof.
  intros Hw H1. revert vals2.
  induction H1 as [| v vals1 Hv H1 IH]; intros [| v' vals2] Heq; cbn in Heq.
  - reflexivity.
  - apply (f_equal (@length Q)) in Heq.
    rewrite length_app, length_one_hot_row in Heq. cbn in Heq. lia.
  - apply (f_equal (@length Q)) in Heq.
    rewrite length_app, length_one_hot_row in Heq. cbn in Heq. lia.
  - apply app_inv_length in Heq as [Hrow Hrest];
      [| now rewrite !length_one_hot_row].
    apply one_hot_row_inj in Hrow; [| exact Hv]. subst v'.
    f_equal. now apply IH.
Qed.

(** X10. For a Discrete(n) space, n >= 1, the function returned by
    [get_preprocess_obs_fn] is injective on the batches of the space: two
    raw batches of class values in 0..n-1 with the same encoding hold the
    same values. *)
Theorem preprocess_Discrete_injective (n : Z) (sh1 sh2 : list nat)
    (dt1 dt2 : dtype) (vals1 vals2 : list Z) :
  1 <= n ->
  Forall (fun v => 0 <= v < n) vals1 ->
  Forall (fun v => 0 <= v < n) vals2 ->
  exists f,
    get_preprocess_obs_fn (Discrete n) = ret f /\
    (f (int_array sh1 dt1 vals1) = f (int_array sh2 dt2 vals2) ->
     sh1 = sh2 /\ vals1 = vals2).
Proof.
  intros Hn H1 H2. eexists. split; [reflexivity |]. cbn beta.
  rewrite (one_hot_in_range _ vals1 n), (one_hot_in_range _ vals2 n);
    try assumption; try reflexivity;
    try (apply long_int_data; reflexivity).
  cbn [long as_tensor int_array nd_shape nd_dtype nd_data t_shape t_device].
  intros Heq. inversion Heq as [[Hsh Hdata]]. split.
  - now apply app_inv_tail in Hsh.
  - apply (flat_map_one_hot_inj (Z.to_nat n)); [lia | | exact Hdata].
    eapply Forall_impl; [| exact H1]. cbn. intros; lia.
Qed.

Lemma preprocess_Discrete_injective_witness :
  exists f,
    get_preprocess_obs_fn (Discrete 3) = ret f /\
    (f (int_array [2%nat] int64 [0; 2]) = f (int_array [2%nat] int32 [0; 2]) ->
     [2%nat] = [2%nat] /\ [0; 2] = [0; 2]).
Proof.
  apply (preprocess_Discrete_injective 3 [2%nat] [2%nat] int64 int32
           [0; 2] [0; 2]).
  - lia.
  - repeat constructor; lia.
  - repeat constructor; lia.
Defined.






(** X12. The function returned for a MultiDiscrete space splits along axis
    1, whatever the counts and the values: a raw batch with a single axis (a
    flat vector) makes it raise IndexError, and a raw batch without axes (a
    single number) makes it raise RuntimeError. *)
Theorem preprocess_MultiDiscrete_flat_batch_raises (nvec : list Z) (obs : ndarray) :
  exists f,
    get_preprocess_obs_fn (MultiDiscrete nvec) = ret f /\
    (forall d0, nd_shape obs = [d0] -> f obs = raise IndexError) /\
    (nd_shape obs = [] -> f obs = raise RuntimeError).
Proof.
  eexists. split; [reflexivity |].
  unfold _multi_discrete_to_one_hot, split_1_dim1.
  cbn [long as_tensor t_shape].
  split; [intros d0 Hshape | intros Hshape]; rewrite Hshape; reflexivity.
Qed.

Lemma preprocess_MultiDiscrete_flat_batch_raises_witness :
  exists f,
    get_preprocess_obs_fn (MultiDiscrete [3; 4; 5]) = ret f /\
    f (int_array [3%nat] int64 [0; 1; 2]) = raise IndexError.
Proof.
  destruct (preprocess_MultiDiscrete_flat_batch_raises
              [3; 4; 5] (int_array [3%nat] int64 [0; 1; 2]))
    as (f & Hf & Hone & _).
  exists f. split; [exact Hf |]. apply (Hone 3%nat). reflexivity.
Defined.

(** ** The image-shape adapter *)

Lemma length_flat_map_const {A B} (f : A -> list B) (l : list A) (k : nat) :
  (forall x, In x l -> length (f x) = k) ->
  length (flat_map f l) = (length l * k)%nat.
Proof.
  induction l as [| x l IH]; cbn; intros H; [reflexivity |].
  rewrite length_app, (H x) by now left.
  rewrite IH; [reflexivity |]. intros y Hy. apply H. now right.
Qed.

Lemma nth_flat_map_seq_from {B} (f : nat -> list B) (n k i j s : nat) (d : B) :
  (forall x, length (f x) = k) ->
  (i < n)%nat -> (j < k)%nat ->
  nth (i * k + j) (flat_map f (seq s n)) d = nth j (f (s + i)%nat) d.
Proof.
  intros Hf. revert i s.
  induction n as [| n IH]; intros i s Hi Hj; [lia |]. cbn [seq flat_map].
  destruct i as [| i].
  - cbn [Nat.mul Nat.add]. rewrite app_nth1 by (rewrite Hf; exact Hj).
    rewrite Nat.add_0_r. reflexivity.
  - rewrite app_nth2 by (rewrite Hf; nia).
    rewrite Hf. replace (S i * k + j - k)%nat with (i * k + j)%nat by nia.
    rewrite (IH i (S s)) by lia. do 2 f_equal. lia.
Qed.

Lemma nth_flat_map_seq {B} (f : nat -> list B) (n k i j : nat) (d : B) :
  (forall x, length (f x) = k) ->
  (i < n)%nat -> (j < k)%nat ->
  nth (i * k + j) (flat_map f (seq 0 n)) d = nth j (f i) d.
Proof. intros Hf Hi Hj. now rewrite (nth_flat_map_seq_from f n k i j 0). Qed.

Lemma length_transposed (h w c : nat) (g : nat -> nat -> nat -> Q) :
  length (flat_map
            (fun k => flat_map (fun i => map (fun j => g i j k) (seq 0 w))
                               (seq 0 h))
            (seq 0 c)) = (c * (h * w))%nat.
Proof.
  rewrite (length_flat_map_const _ _ (h * w)), length_seq; [reflexivity |].
  intros k _.
  rewrite (length_flat_map_const _ _ w), length_seq; [reflexivity |].
  intros i _. now rewrite length_map, length_seq.
Qed.

(** X13. When the wrapped environment's "image" space is a Box of shape
    (H, W, C) and an observation holds an "image" array of that shape,
    [Minigrid2Image] declares an observation space of shape (C, H, W) and
    [observation] returns an array of exactly that shape, with the dtype of
    the image and C*H*W elements: the element at (c, h, w) of the result is
    the element at (h, w, c) of the image. *)
Theorem Minigrid2Image_observation_matches_space
    (spaces : list (string * Space)) (b : BoxSpace) (h w c : nat)
    (observation : list (string * ndarray)) (image : ndarray) :
  dict_get spaces "image" = Some (Box b) ->
  box_shape b = [h; w; c] ->
  dict_get observation "image" = Some image ->
  nd_shape image = [h; w; c] ->
  exists space out,
    Minigrid2Image_observation_space (Dict spaces) = Looked_up (ret space) /\
    Minigrid2Image_observation observation = Looked_up (ret out) /\
    shape space = Some [c; h; w] /\
    nd_shape out = [c; h; w] /\
    nd_dtype out = nd_dtype image /\
    length (nd_data out) = (c * (h * w))%nat /\
    forall k i j, (k < c)%nat -> (i < h)%nat -> (j < w)%nat ->
      nth (k * (h * w) + (i * w + j)) (nd_data out) 0%Q =
      nth (i * (w * c) + j * c + k) (nd_data image) 0%Q.
Proof.
  intros Hspace Hshape Himage Himg_shape.
  unfold Minigrid2Image_observation_space, Minigrid2Image_observation,
    np_transpose_2_0_1.
  rewrite Hspace, Hshape, Himage, Himg_shape.
  do 2 eexists. split; [reflexivity |]. split; [reflexivity |].
  cbn [shape Box_of box_shape nd_shape nd_dtype nd_data].
  repeat split.
  - apply length_transposed.
  - intros k i j Hk Hi Hj.
    rewrite (nth_flat_map_seq _ c (h * w) k (i * w + j));
      [| | exact Hk | nia].
    + rewrite (nth_flat_map_seq _ h w i j);
        [| intros; now rewrite length_map, length_seq | exact Hi | exact Hj].
      rewrite (nth_map_lt _ _ _ _ O) by (now rewrite length_seq).
      now rewrite seq_nth by exact Hj.
    + intros x. rewrite (length_flat_map_const _ _ w), length_seq;
        [reflexivity |].
      intros y _. now rewrite length_map, length_seq.
Qed.

Lemma Minigrid2Image_observation_matches_space_witness :
  exists space out,
    Minigrid2Image_observation_space
      (Dict [("direction"%string, Discrete 4);
             ("image"%string, Box_of 0 255 [1; 2; 3]%nat uint8)])
    = Looked_up (ret space) /\
    Minigrid2Image_observation
      [("image"%string, mk_ndarray [1; 2; 3]%nat uint8 [1; 2; 3; 4; 5; 6]%Q)]
    = Looked_up (ret out) /\
    shape space = Some [3; 1; 2]%nat /\
    nd_shape out = [3; 1; 2]%nat /\
    nd_dtype out = uint8 /\
    length (nd_data out) = 6%nat /\
    forall k i j, (k < 3)%nat -> (i < 1)%nat -> (j < 2)%nat ->
      nth (k * (1 * 2) + (i * 2 + j)) (nd_data out) 0%Q =
      nth (i * (2 * 3) + j * 3 + k) [1; 2; 3; 4; 5; 6]%Q 0%Q.
Proof.
  apply (Minigrid2Image_observation_matches_space
           [("direction"%string, Discrete 4);
            ("image"%string, Box_of 0 255 [1; 2; 3]%nat uint8)]
           (mk_Box [1; 2; 3]%nat (repeat 0%Q 6) (repeat 255%Q 6) uint8)
           1 2 3
           [("image"%string, mk_ndarray [1; 2; 3]%nat uint8 [1; 2; 3; 4; 5; 6]%Q)]
           (mk_ndarray [1; 2; 3]%nat uint8 [1; 2; 3; 4; 5; 6]%Q));
    reflexivity.
Defined.

(** X14. The failures of the adapter: without an "image" entry, the
    constructor (on a dictionary space) and [observation] raise KeyError; on
    a wrapped observation space that is a MultiDiscrete space the
    constructor raises IndexError, and on one that is neither a dictionary
    nor a MultiDiscrete space it raises TypeError; on an "image" Box space
    with fewer than three axes it raises IndexError; and [observation]
    raises ValueError on an image that does not have exactly three axes. *)
Theorem Minigrid2Image_failures :
  (forall spaces,
     dict_get spaces "image" = None ->
     Minigrid2Image_observation_space (Dict spaces) = KeyError "image") /\
  (forall observation,
     dict_get observation "image" = None ->
     Minigrid2Image_observation observation = KeyError "image") /\
  (forall nvec,
     Minigrid2Image_observation_space (MultiDiscrete nvec)
     = Looked_up (raise IndexError)) /\
  (forall s,
     class_name s <> "Dict"%string ->
     class_name s <> "MultiDiscrete"%string ->
     Minigrid2Image_observation_space s = Looked_up (raise TypeError)) /\
  (forall spaces b,
     dict_get spaces "image" = Some (Box b) ->
     (length (box_shape b) < 3)%nat ->
     Minigrid2Image_observation_space (Dict spaces) = Looked_up (raise IndexError)) /\
  (forall observation image,
     dict_get observation "image" = Some image ->
     length (nd_shape image) <> 3%nat ->
     Minigrid2Image_observation observation = Looked_up (raise ValueError)).
Proof.
  repeat split.
  - intros spaces H. cbn. now rewrite H.
  - intros observation H. unfold Minigrid2Image_observation. now rewrite H.
  - intros s H H'. destruct s; try reflexivity;
      [now contradiction H' | now contradiction H].
  - intros spaces b H Hlen. cbn. rewrite H.
    destruct (box_shape b) as [| h [| w [| c rest]]]; cbn in Hlen;
      try reflexivity. lia.
  - intros observation image H Hlen.
    unfold Minigrid2Image_observation, np_transpose_2_0_1. rewrite H.
    destruct (nd_shape image) as [| h [| w [| c [| x rest]]]]; cbn in Hlen;
      try reflexivity. lia.
Qed.

Lemma Minigrid2Image_failures_witness :
  Minigrid2Image_observation_space (Dict [("direction"%string, Discrete 4)])
  = KeyError "image" /\
  Minigrid2Image_observation_space (Box_of 0 255 [7; 7; 3]%nat uint8)
  = Looked_up (raise TypeError) /\
  Minigrid2Image_observation
    [("image"%string, mk_ndarray [2; 2]%nat uint8 [1; 2; 3; 4]%Q)]
  = Looked_up (raise ValueError).
Proof.
  split; [| split].
  - apply (proj1 Minigrid2Image_failures). reflexivity.
  - apply (proj1 (proj2 (proj2 (proj2 Minigrid2Image_failures))));
      discriminate.
  - apply (proj2 (proj2 (proj2 (proj2 (proj2 Minigrid2Image_failures))))
             _ (mk_ndarray [2; 2]%nat uint8 [1; 2; 3; 4]%Q)).
    + reflexivity.
    + discriminate.
Defined.

(** X15. The space the adapter declares for an "image" Box space with at
    least three axes is an image space for the preprocessing exactly when
    the dtype of the wrapped image space is uint8, whatever the bounds of
    the wrapped space; [get_preprocess_obs_fn] then selects the division by
    255 for it. *)
Theorem Minigrid2Image_space_is_image (spaces : list (string * Space))
    (b : BoxSpace) (h w c : nat) (rest : list nat) :
  dict_get spaces "image" = Some (Box b) ->
  box_shape b = h :: w :: c :: rest ->
  exists space,
    Minigrid2Image_observation_space (Dict spaces) = Looked_up (ret space) /\
    is_image_space space false false = ret (dtype_eqb (box_dtype b) uint8) /\
    (box_dtype b = uint8 ->
     exists f, get_preprocess_obs_fn space = ret f /\
               forall obs, f obs = ret (div_255 (as_tensor obs))).
Proof.
  intros Hspace Hshape. unfold Minigrid2Image_observation_space.
  rewrite Hspace, Hshape. eexists. split; [reflexivity |].
  assert (is_image_space
            (Box_of 0 (high_255 (box_dtype b)) [c; h; w] (box_dtype b))
            false false
          = ret (dtype_eqb (box_dtype b) uint8)) as Himg.
  { unfold Box_of, is_image_space.
    cbn [box_shape box_dtype box_low box_high length Nat.eqb negb].
    destruct (box_dtype b); try reflexivity.
    cbn [high_255 dtype_eqb negb andb].
    rewrite !np_any_ne_repeat. reflexivity. }
  split; [exact Himg |].
  intros Hdt. unfold Box_of in *. cbn [get_preprocess_obs_fn].
  rewrite Himg, Hdt, bind_ret_l. cbn [dtype_eqb].
  eexists. split; reflexivity.
Qed.

Lemma Minigrid2Image_space_is_image_witness :
  exists space,
    Minigrid2Image_observation_space
      (Dict [("image"%string, Box_of 0 10 [7; 7; 3]%nat uint8)])
    = Looked_up (ret space) /\
    is_image_space space false false = ret true /\
    (uint8 = uint8 ->
     exists f, get_preprocess_obs_fn space = ret f /\
               forall obs, f obs = ret (div_255 (as_tensor obs))).
Proof.
  apply (Minigrid2Image_space_is_image
           [("image"%string, Box_of 0 10 [7; 7; 3]%nat uint8)]
           (mk_Box [7; 7; 3]%nat (repeat 0%Q 147) (repeat 10%Q 147) uint8)
           7 7 3 []); reflexivity.
Defined.

(** ** The batched tensor adapter: [reset], and the failures of [step] *)

Section BatchedTensorAdapterFailures.

Variables (env_state info_dict kwargs : Type).
Variable env_reset : env_state -> kwargs -> M (env_state * (ndarray * info_dict)).
Variable env_step :
  env_state -> ndarray ->
  M (env_state * (ndarray * ndarray * list bool * list bool * info_dict)).

(** [reset] adds nothing of its own to the wrapped reset: it passes its
    warnings, its exception, its new state and its info through, and returns
    the observation with the same shape, dtype and elements as a tensor on
    the configured device. *)
Theorem reset_spec (dev : device) (st : env_state) (kw : kwargs) :
  (forall ws e,
     env_reset st kw = (ws, Raise e) ->
     reset env_reset dev st kw = (ws, Raise e)) /\
  (forall ws st' obs info,
     env_reset st kw = (ws, Ok (st', (obs, info))) ->
     reset env_reset dev st kw =
     (ws, Ok (st', (mk_Tensor (nd_shape obs) (nd_dtype obs) dev (nd_data obs),
                    info)))).
Proof.
  unfold reset. split.
  - intros ws e ->. reflexivity.
  - intros ws st' obs info ->. cbn. now rewrite app_nil_r.
Qed.

(** X16. [step] squeezes the action before anything else: an action tensor
    with fewer than two axes is rejected with IndexError before the wrapped
    environment is stepped, so whatever that environment would do. When the
    action has been squeezed and converted and the wrapped step raises,
    [step] raises the same exception, with the same warnings. *)
Theorem step_failures (dev : device) (st : env_state) (action : Tensor) :
  ((length (t_shape action) < 2)%nat ->
   step env_step dev st action = raise IndexError) /\
  (forall squeezed ws e,
     squeeze_1 action = ret squeezed ->
     env_step st (cpu_numpy squeezed) = (ws, Raise e) ->
     step env_step dev st action = (ws, Raise e)).
Proof.
  unfold step. split.
  - intros Hrank. unfold squeeze_1.
    destruct (t_shape action) as [| a0 [| a1 rest]]; cbn in Hrank;
      try reflexivity. lia.
  - intros squeezed ws e -> Hstep. rewrite bind_ret_l, Hstep. reflexivity.
Qed.

End BatchedTensorAdapterFailures.

Lemma reset_spec_witness :
  reset example_env_reset "cuda:0"%string tt tt =
  ret (tt, (mk_Tensor [2; 3]%nat uint8 "cuda:0"%string [1; 2; 3; 4; 5; 6]%Q, tt)).
Proof.
  apply (proj2 (reset_spec unit unit unit example_env_reset
                  "cuda:0"%string tt tt)
           [] tt (mk_ndarray [2; 3]%nat uint8 [1; 2; 3; 4; 5; 6]%Q) tt).
  reflexivity.
Defined.

Lemma step_failures_witness :
  step example_env_step cpu tt (mk_Tensor [2%nat] int64 cpu [3; 1]%Q)
  = raise IndexError.
Proof.
  apply (proj1 (step_failures unit unit example_env_step cpu tt
                  (mk_Tensor [2%nat] int64 cpu [3; 1]%Q))).
  cbn. lia.
Defined.

(** ** The environment factory: seeds, and the empty batch *)

Lemma range_nonpositive (n : Z) : n <= 0 -> range n = [].
Proof.
  intros Hn. unfold range.
  replace (Z.to_nat n) with O by lia. reflexivity.
Qed.

Lemma NoDup_range (n : Z) : NoDup (range n).
Proof.
  unfold range. apply NoDup_map_NoDup_ForallPairs; [| apply seq_NoDup].
  intros a b _ _ H. lia.
Qed.

Lemma range_cons (n : Z) : 1 <= n -> exists tl, range n = 0 :: tl.
Proof.
  intros Hn. unfold range.
  destruct (Z.to_nat n) as [| k] eqn:Hk; [lia |].
  cbn. eexists; reflexivity.
Qed.

(** X17. With a positive environment count, a seed that is not negative and
    a library that accepts the constructor calls and the device, the
    instances built by [make_minigrid_env] carry pairwise distinct seeds,
    and every instance seeds its observation space with the seed of its
    action space. With a count of zero or less the call raises IndexError
    (the vectorised environment cannot be made of no instance). With a
    positive count, a negative seed makes the call raise the seeding error
    of gymnasium, and an exception of [gym.make] for the identifier is the
    exception of the call. *)
Theorem make_minigrid_env_seeds (construct : Env -> M unit)
    (th_device : device -> M device) (env_id : string) (N : Z)
    (fully_observable : bool) (seed frame_stack : Z) (dev : device) :
  (1 <= N -> 0 <= seed ->
   (forall e, In e (construction_steps fully_observable frame_stack env_id) ->
              returns (construct e) tt) ->
   forall d, returns (th_device dev) d ->
   exists w,
     returns (make_minigrid_env construct th_device env_id N fully_observable
                                seed frame_stack dev) w /\
     NoDup (map action_space_seed (envs (env w))) /\
     Forall (fun e => observation_space_seed e = action_space_seed e)
            (envs (env w))) /\
  (N <= 0 ->
   make_minigrid_env construct th_device env_id N fully_observable
                     seed frame_stack dev
   = raise IndexError) /\
  (1 <= N -> seed < 0 ->
   (forall e, In e (construction_steps fully_observable frame_stack env_id) ->
              returns (construct e) tt) ->
   raises (make_minigrid_env construct th_device env_id N fully_observable
                             seed frame_stack dev) gymnasium_Error) /\
  (1 <= N ->
   forall e, raises (construct (gym_make env_id)) e ->
   raises (make_minigrid_env construct th_device env_id N fully_observable
                             seed frame_stack dev) e).
Proof.
  split; [| split; [| split]].
  - intros HN Hseed Hsteps d Hdev. eexists. split.
    + unfold make_minigrid_env.
      eapply returns_bind;
        [apply SyncVectorEnv_init_returns; eassumption |].
      unfold TorchVecEnvWrapper_init.
      eapply returns_bind; [exact Hdev | apply returns_ret].
    + cbn [env envs]. split.
      * rewrite map_map. cbn [action_space_seed].
        apply NoDup_map_NoDup_ForallPairs; [| apply NoDup_range].
        intros a b _ _ H. lia.
      * apply Forall_forall. intros x Hx.
        apply in_map_iff in Hx as (i & <- & _). reflexivity.
  - intros HN. unfold make_minigrid_env, SyncVectorEnv_init.
    now rewrite (range_nonpositive N HN).
  - intros HN Hseed Hsteps. unfold make_minigrid_env, SyncVectorEnv_init.
    destruct (range_cons N HN) as [tl ->]. cbn [map mapM].
    do 3 apply raises_bind_l. unfold make_env.
    rewrite Z.add_0_r, (Space_seed_negative seed Hseed).
    unfold construction_steps in Hsteps.
    destruct fully_observable.
    + eapply raises_bind_r; [apply Hsteps; cbn; tauto |].
      eapply raises_bind_r; [| exists []; reflexivity].
      eapply returns_bind; [apply Hsteps; cbn; tauto |].
      eapply returns_bind; [apply Hsteps; cbn; tauto |].
      eapply returns_bind; [apply Hsteps; cbn; tauto |].
      apply returns_ret.
    + eapply raises_bind_r; [apply Hsteps; cbn; tauto |].
      eapply raises_bind_r; [| exists []; reflexivity].
      eapply returns_bind; [apply Hsteps; cbn; tauto |].
      apply returns_ret.
  - intros HN e He. unfold make_minigrid_env, SyncVectorEnv_init.
    destruct (range_cons N HN) as [tl ->]. cbn [map mapM].
    do 3 apply raises_bind_l. unfold make_env.
    apply raises_bind_l. exact He.
Qed.

Lemma make_minigrid_env_seeds_witness :
  (exists w,
     returns (make_minigrid_env construct_registered th_device_any
                                "MiniGrid-Empty-5x5-v0"%string 3 false 10 1 cpu)
             w /\
     NoDup (map action_space_seed (envs (env w))) /\
     Forall (fun e => observation_space_seed e = action_space_seed e)
            (envs (env w))) /\
  make_minigrid_env construct_registered th_device_any
                    "MiniGrid-Empty-5x5-v0"%string 0 false 10 1 cpu
  = raise IndexError /\
  raises (make_minigrid_env construct_registered th_device_any
                            "MiniGrid-Empty-5x5-v0"%string 3 false (-1) 1 cpu)
         gymnasium_Error /\
  raises (make_minigrid_env construct_registered th_device_any
                            "Alien-v5"%string 3 false 10 1 cpu)
         gymnasium_Error.
Proof.
  assert (forall e,
            In e (construction_steps false 1 "MiniGrid-Empty-5x5-v0"%string) ->
            returns (construct_registered e) tt) as Hsteps.
  { intros e He. cbn in He. destruct He as [<- | [<- | []]];
      exists []; reflexivity. }
  split; [| split; [| split]].
  - apply (fun H1 H2 H3 =>
             proj1 (make_minigrid_env_seeds construct_registered th_device_any
                      "MiniGrid-Empty-5x5-v0"%string 3 false 10 1 cpu)
                   H1 H2 H3 cpu);
      [lia | lia | exact Hsteps | exists []; reflexivity].
  - apply (proj1 (proj2 (make_minigrid_env_seeds construct_registered
                           th_device_any "MiniGrid-Empty-5x5-v0"%string
                           0 false 10 1 cpu))). lia.
  - apply (proj1 (proj2 (proj2 (make_minigrid_env_seeds construct_registered
                                  th_device_any "MiniGrid-Empty-5x5-v0"%string
                                  3 false (-1) 1 cpu))));
      [lia | lia | exact Hsteps].
  - apply (proj2 (proj2 (proj2 (make_minigrid_env_seeds construct_registered
                                  th_device_any "Alien-v5"%string
                                  3 false 10 1 cpu))));
      [lia | exists []; reflexivity].
Defined.

(** ** [get_preprocess_obs_fn]: the spaces it accepts *)

(** X18. [get_preprocess_obs_fn] returns a function, without a warning,
    exactly for the Box, Discrete, MultiDiscrete and MultiBinary spaces. A
    dictionary space, also one that [process_observation_space] turns into a
    mapping of shapes, gets no preprocessing function: the call raises the
    preprocessing-not-implemented error. *)
Theorem get_preprocess_obs_fn_returns_iff :
  (forall s,
     (exists ws f, get_preprocess_obs_fn s = (ws, Ok f)) <->
     In (class_name s) action_kinds) /\
  (forall s, In (class_name s) action_kinds ->
             exists f, get_preprocess_obs_fn s = ret f) /\
  (forall spaces,
     supported_observation_space (Dict spaces) = true ->
     (exists items,
        process_observation_space (Dict spaces) = ret (ShapeDict items)) /\
     get_preprocess_obs_fn (Dict spaces) =
     raise (NotImplementedError (Preprocessing_not_implemented_for (Dict spaces)))).
Proof.
  assert (forall s, In (class_name s) action_kinds ->
                    exists f, get_preprocess_obs_fn s = ret f) as Hret.
  { intros s Hkind.
    destruct s as [b | n | nvec | sh | spaces | spaces | m | f];
      try (eexists; reflexivity);
      try (exfalso; cbn in Hkind;
           destruct Hkind as [H | [H | [H | [H | []]]]]; discriminate H).
    cbn [get_preprocess_obs_fn].
    destruct (is_image_space_quiet (Box b) false) as [[|] ->];
      rewrite bind_ret_l; eexists; reflexivity. }
  split; [| split; [exact Hret |]].
  - intros s. split.
    + intros (ws & f & Hf).
      destruct s; cbn; try tauto; discriminate Hf.
    + intros Hkind. destruct (Hret s Hkind) as [f Hf]. exists [], f. exact Hf.
  - intros spaces Hs. split; [| reflexivity].
    rewrite supported_observation_space_Dict in Hs.
    destruct (process_items_Forall2 spaces Hs) as (items & Hitems & _).
    exists items. rewrite process_observation_space_Dict, Hitems. reflexivity.
Qed.

Lemma get_preprocess_obs_fn_returns_iff_witness :
  (exists items,
     process_observation_space (Dict example_items) = ret (ShapeDict items)) /\
  get_preprocess_obs_fn (Dict example_items) =
  raise (NotImplementedError
           (Preprocessing_not_implemented_for (Dict example_items))).
Proof.
  apply (proj2 (proj2 get_preprocess_obs_fn_returns_iff) example_items).
  reflexivity.
Defined.

(** ** MultiDiscrete preprocessing: a value outside its range *)

Lemma mapM_raise_uniform {A B} (f : A -> M B) (l : list A) (e : exn) :
  (forall x, In x l -> (exists y, f x = ret y) \/ f x = raise e) ->
  (exists x, In x l /\ f x = raise e) ->
  mapM f l = raise e.
Proof.
  induction l as [| x l IH]; intros Hall (x0 & Hin & Hx0); [contradiction |].
  cbn [mapM].
  destruct (Hall x (or_introl eq_refl)) as [[y Hy] | Hx].
  - rewrite Hy, bind_ret_l.
    destruct Hin as [-> | Hin]; [rewrite Hy in Hx0; discriminate Hx0 |].
    rewrite IH; [reflexivity | |].
    + intros z Hz. apply Hall. now right.
    + exists x0. split; assumption.
  - rewrite Hx. reflexivity.
Qed.

Lemma in_range_dec (c v : Z) : {0 <= v < c} + {~ 0 <= v < c}.
Proof.
  destruct (Z_le_dec 0 v); [| right; lia].
  destruct (Z_lt_dec v c); [left | right]; lia.
Qed.

(** X19. For a MultiDiscrete(counts) space with at least one (positive)
    count and a raw batch with one column per count, a value that is
    negative or not below the count of its column makes the function
    returned by [get_preprocess_obs_fn] raise (the RuntimeError of
    [F.one_hot]): such a batch is never encoded. *)
Theorem preprocess_MultiDiscrete_out_of_range (nvec : list Z)
    (rows : list (list Z)) (dt : dtype) (row : list Z) (j : nat) :
  nvec <> [] ->
  Forall (fun c => 0 < c) nvec ->
  Forall (fun r => length r = length nvec) rows ->
  In row rows ->
  (j < length nvec)%nat ->
  nth j row 0 < 0 \/ nth j nvec 0 <= nth j row 0 ->
  exists f,
    get_preprocess_obs_fn (MultiDiscrete nvec) = ret f /\
    f (batch_array (length nvec) dt rows) = raise RuntimeError.
Proof.
  intros Hne Hpos Hlen Hrow Hj Hbad.
  exists (_multi_discrete_to_one_hot nvec). split; [reflexivity |].
  unfold _multi_discrete_to_one_hot, batch_array, int_array, as_tensor.
  cbn [nd_shape nd_dtype nd_data].
  rewrite long_int_tensor, split_batch;
    [| destruct nvec; [contradiction | cbn; lia] | exact Hlen].
  rewrite bind_ret_l, enumerate_map_seq.
  rewrite (mapM_raise_uniform _ _ RuntimeError); [reflexivity | |].
  - intros [k t] Hin.
    apply in_map_iff in Hin as (k' & Heq & Hk). inversion Heq; subst k' t.
    apply in_seq in Hk. cbn in Hk.
    rewrite (getitem_nth nvec k 0) by lia. rewrite bind_ret_l, long_int_tensor.
    destruct (Forall_Exists_dec _ (in_range_dec (nth k nvec 0)) (column k rows))
      as [Hall | Hex].
    + left. rewrite (one_hot_in_range _ (column k rows) (nth k nvec 0));
        try reflexivity; try assumption.
      * rewrite bind_ret_l. eexists; reflexivity.
      * apply count_positive; [assumption | lia].
    + right. rewrite (one_hot_out_of_range _ (column k rows) (nth k nvec 0));
        try reflexivity.
      * apply count_positive; [assumption | lia].
      * eapply Exists_impl; [| exact Hex]. cbn. intros; lia.
  - exists (j, mk_Tensor [length rows; 1%nat] int64 cpu
                         (map inject_Z (column j rows))).
    split.
    + apply in_map_iff. exists j. split; [reflexivity |].
      apply in_seq. cbn. lia.
    + rewrite (getitem_nth nvec j 0) by lia. rewrite bind_ret_l, long_int_tensor.
      rewrite (one_hot_out_of_range _ (column j rows) (nth j nvec 0));
        try reflexivity.
      * apply count_positive; [assumption | lia].
      * apply Exists_exists. exists (nth j row 0). split; [| exact Hbad].
        unfold column. apply in_map_iff. exists row. split; [reflexivity | exact Hrow].
Qed.

Lemma preprocess_MultiDiscrete_out_of_range_witness :
  exists f,
    get_preprocess_obs_fn (MultiDiscrete [3; 4; 5]) = ret f /\
    f (batch_array 3 int64 [[0; 1; 2]; [2; 4; 4]]) = raise RuntimeError.
Proof.
  apply (preprocess_MultiDiscrete_out_of_range
           [3; 4; 5] [[0; 1; 2]; [2; 4; 4]] int64 [2; 4; 4] 1).
  - discriminate.
  - repeat constructor.
  - repeat constructor.
  - right. left. reflexivity.
  - cbn. lia.
  - right. cbn. lia.
Defined.
